(** * paquo.hierarchy: the object hierarchy and its set-like proxies

    A shallow embedding of [src/paquo/hierarchy.py]:
    - the Python sequence protocol the proxy relies on ([slice.indices],
      slicing of [range] objects and of lists, integer indexing with
      negative positions);
    - [PathObjectProxy]: construction, the memoized [_readonly] and [_list]
      attributes, [add], [discard], [clear], [__contains__], [__getitem__];
    - [QuPathPathObjectHierarchy]: the weak reference to the image entry,
      [_readonly], and [load_geojson].

    The Java object hierarchy (QuPath's [PathObjectHierarchy]), shapely and
    the geojson converter are external: they appear as interfaces
    ([JavaHierarchy], [Shapely], [Converter]) and every definition and
    theorem is parametric in them.  A small list-backed store instantiates
    the interfaces for the concrete examples. *)

From Stdlib Require Import ZArith Lia.
From stdpp Require Import base option list strings gmap fin_maps pretty.

Local Open Scope string_scope.
Local Open Scope list_scope.
Local Open Scope Z_scope.

(** ** Exceptions and the state/exception monad *)

Inductive exception : Type :=
| IOError (msg : string)
| TypeError (msg : string)
| ValueError (msg : string)
| IndexError (msg : string)
| KeyError (key : string)
| IllegalArgumentException (msg : string)   (* paquo.java *)
| JavaException (msg : string)              (* any other error of the store *)
| AttributeError (msg : string).

(** The two [IOError]s the proxy raises; the specification calls them
    ViewRestrictedError and ReadOnlyError. *)
Definition ViewRestrictedError : exception := IOError "cannot modify view".
Definition ReadOnlyError : exception := IOError "project in readonly mode".

Inductive result (A : Type) : Type :=
| Ok (a : A)
| Raise (e : exception).
Arguments Ok {A} a.
Arguments Raise {A} e.

(** Exception-only computations (pure Python expressions that may raise). *)
Definition rbind {A B} (r : result A) (k : A -> result B) : result B :=
  match r with
  | Ok a => k a
  | Raise e => Raise e
  end.

(** A list comprehension whose element expression may raise. *)
Fixpoint comprehension {A B} (f : A -> result B) (xs : list A) : result (list B) :=
  match xs with
  | [] => Ok []
  | x :: xs' => rbind (f x) (fun y => rbind (comprehension f xs') (fun ys => Ok (y :: ys)))
  end.

(** Computations that read and write a state [St] and may raise. The state
    reached when the exception is raised is kept: Python does not roll
    back. *)
Definition M (St A : Type) : Type := St -> result A * St.

Definition ret {St A} (a : A) : M St A := fun st => (Ok a, st).
Definition raise {St A} (e : exception) : M St A := fun st => (Raise e, st).
Definition bind {St A B} (c : M St A) (k : A -> M St B) : M St B :=
  fun st =>
    match c st with
    | (Ok a, st') => k a st'
    | (Raise e, st') => (Raise e, st')
    end.
Definition gets {St A} (f : St -> A) : M St A := fun st => (Ok (f st), st).
Definition modify {St} (f : St -> St) : M St unit := fun st => (Ok tt, f st).
Definition lift {St A} (r : result A) : M St A := fun st => (r, st).

(** [try: body finally: cleanup], for a cleanup that does not raise. *)
Definition try_finally {St A} (body : M St A) (cleanup : St -> St) : M St A :=
  fun st => let '(r, st') := body st in (r, cleanup st').

(** [with suppress(...): body], for a body without result: the exceptions
    [swallowed] accepts end the block quietly, in the state they were
    raised in. *)
Definition suppress {St} (swallowed : exception -> bool) (body : M St unit) : M St unit :=
  fun st =>
    match body st with
    | (Raise e, st') => if swallowed e then (Ok tt, st') else (Raise e, st')
    | r => r
    end.

Declare Scope py_scope.
Delimit Scope py_scope with py.
Notation "'do' x <- c ; k" := (bind c (fun x => k))
  (at level 10, x name, c at level 100, k at level 200) : py_scope.
Notation "'exec' c ; k" := (bind c (fun _ => k))
  (at level 10, c at level 100, k at level 200) : py_scope.
Local Open Scope py_scope.

(** ** Python sequences: slices, ranges, lists *)

Record slice : Type := Slice { start : option Z; stop : option Z; step : option Z }.

(** [s.indices(length)], as CPython computes it. *)
Definition slice_indices (s : slice) (length : Z) : result (Z * Z * Z) :=
  let stp := default 1 (step s) in
  if stp =? 0 then Raise (ValueError "slice step cannot be zero")
  else
    let lower := if stp <? 0 then -1 else 0 in
    let upper := if stp <? 0 then length - 1 else length in
    let clamp v := if v <? 0 then Z.max (v + length) lower else Z.min v upper in
    let sta := match start s with
               | None => if stp <? 0 then upper else lower
               | Some v => clamp v
               end in
    let sto := match stop s with
               | None => if stp <? 0 then lower else upper
               | Some v => clamp v
               end in
    Ok (sta, sto, stp).

(** Number of positions of the progression [sta, sta+stp, ...] before [sto]. *)
Definition progression_len (sta sto stp : Z) : Z :=
  if 0 <? stp then (if sta <? sto then (sto - sta - 1) / stp + 1 else 0)
  else (if sto <? sta then (sta - sto - 1) / (- stp) + 1 else 0).

Definition progression (sta sto stp : Z) : list Z :=
  (fun k => sta + k * stp) <$> seqZ 0 (progression_len sta sto stp).

(** [l[i]] for an integer [i]. *)
Definition list_getitem {A} (l : list A) (i : Z) : result A :=
  let n := Z.of_nat (length l) in
  let i' := if i <? 0 then i + n else i in
  if (0 <=? i') && (i' <? n) then
    match l !! Z.to_nat i' with
    | Some x => Ok x
    | None => Raise (IndexError "list index out of range")
    end
  else Raise (IndexError "list index out of range").

(** [l[s]] for a slice [s]: the positions [s.indices(len(l))] denotes; they
    are all inside the list. *)
Definition list_getslice {A} (l : list A) (s : slice) : result (list A) :=
  rbind (slice_indices s (Z.of_nat (length l))) (fun '(sta, sto, stp) =>
    Ok (omap (fun p => l !! Z.to_nat p) (progression sta sto stp))).

Record range : Type := Range { r_start : Z; r_stop : Z; r_step : Z }.

(** [range(n)] *)
Definition range1 (n : Z) : range := Range 0 n 1.

Definition range_len (r : range) : Z :=
  progression_len (r_start r) (r_stop r) (r_step r).

Definition range_getitem (r : range) (i : Z) : result Z :=
  let n := range_len r in
  let i' := if i <? 0 then i + n else i in
  if (0 <=? i') && (i' <? n) then Ok (r_start r + i' * r_step r)
  else Raise (IndexError "range object index out of range").

(** [r[s]] is again a range (CPython's [compute_slice]). *)
Definition range_getslice (r : range) (s : slice) : result range :=
  rbind (slice_indices s (range_len r)) (fun '(sta, sto, stp) =>
    Ok (Range (r_start r + sta * r_step r) (r_start r + sto * r_step r)
              (stp * r_step r))).

(** [slice(r.start, r.stop, r.step)] *)
Definition slice_of_range (r : range) : slice :=
  Slice (Some (r_start r)) (Some (r_stop r)) (Some (r_step r)).


(** ** Python values, paquo classes, Java objects *)

(** Classes of [paquo.java] the store holds instances of. *)
Inductive JavaClass : Type :=
| PathRootObject
| PathAnnotationObject
| PathDetectionObject
| PathTileObject.

Global Instance JavaClass_eq_dec : EqDecision JavaClass.
Proof. solve_decision. Defined.

(** A Java path object: its identity and its runtime class. *)
Record PathObject : Type := JObj { oid : nat; jclass : JavaClass }.

Global Instance PathObject_eq_dec : EqDecision PathObject.
Proof. solve_decision. Defined.

(** Modelled from the spec: the wrapper classes of [paquo.pathobjects] (not
    under src/). "Object Kind: one of Annotation, Detection, Tile; Tile is a
    refinement of Detection": the tile class is a subclass of the detection
    class. *)
Inductive PaquoClass : Type :=
| QuPathPathAnnotationObject
| QuPathPathDetectionObject
| QuPathPathTileObject.

Global Instance PaquoClass_eq_dec : EqDecision PaquoClass.
Proof. solve_decision. Defined.

Definition java_class (c : PaquoClass) : JavaClass :=
  match c with
  | QuPathPathAnnotationObject => PathAnnotationObject
  | QuPathPathDetectionObject => PathDetectionObject
  | QuPathPathTileObject => PathTileObject
  end.

Definition __name__ (c : PaquoClass) : string :=
  match c with
  | QuPathPathAnnotationObject => "QuPathPathAnnotationObject"
  | QuPathPathDetectionObject => "QuPathPathDetectionObject"
  | QuPathPathTileObject => "QuPathPathTileObject"
  end.

Definition issubclass (c d : PaquoClass) : bool :=
  match c, d with
  | QuPathPathAnnotationObject, QuPathPathAnnotationObject => true
  | QuPathPathDetectionObject, QuPathPathDetectionObject => true
  | QuPathPathTileObject, QuPathPathTileObject => true
  | QuPathPathTileObject, QuPathPathDetectionObject => true
  | _, _ => false
  end.

(** Modelled from the spec: a wrapped path object ([_PathROIObject] of
    [paquo.pathobjects], not under src/) with the three attributes the
    proxy reads: its class, [java_object] and [parent] ("walks x's parent
    chain to its topmost ancestor"). The parent chain of an object of a tree
    is finite, hence the inductive type. *)
Inductive _PathROIObject : Type :=
| Topmost (cls : PaquoClass) (obj : PathObject)                          (* parent is None *)
| Child (cls : PaquoClass) (obj : PathObject) (up : _PathROIObject).

Definition cls_of (o : _PathROIObject) : PaquoClass :=
  match o with Topmost c _ | Child c _ _ => c end.
Definition java_object (o : _PathROIObject) : PathObject :=
  match o with Topmost _ j | Child _ j _ => j end.
Definition parent (o : _PathROIObject) : option _PathROIObject :=
  match o with Topmost _ _ => None | Child _ _ p => Some p end.

(** The Python values that reach the proxy as arguments. *)
Inductive pyvalue : Type :=
| PyInt (z : Z)
| PyStr (s : string)
| PyObj (o : _PathROIObject).

Definition isinstance_int (x : pyvalue) : bool :=
  match x with PyInt _ => true | _ => false end.

Definition isinstance (x : pyvalue) (c : PaquoClass) : bool :=
  match x with PyObj o => issubclass (cls_of o) c | _ => false end.

(** [x.__class__.__name__] *)
Definition class_name (x : pyvalue) : string :=
  match x with
  | PyInt _ => "int"
  | PyStr _ => "str"
  | PyObj o => __name__ (cls_of o)
  end.

(** [seq[x]] where [x] is an arbitrary value: only integers index. *)
Definition list_index {A} (l : list A) (x : pyvalue) : result A :=
  match x with
  | PyInt z => list_getitem l z
  | _ => Raise (TypeError "list indices must be integers or slices")
  end.

Definition range_index (r : range) (x : pyvalue) : result Z :=
  match x with
  | PyInt z => range_getitem r z
  | _ => Raise (TypeError "range indices must be integers or slices")
  end.

(** ** The external store: QuPath's PathObjectHierarchy

    The methods of the Java hierarchy the module calls. The reads are pure,
    the mutators may raise and leave the store in some state of their
    choosing. [removePathObjects] is the root object's method. The
    collection [getObjects] returns is indexed and sliced by the proxy; it
    is taken with the semantics of a Python list ("an opaque ordered
    collection queryable by type"). *)
Class JavaHierarchy (J : Type) : Type := {
  getObjects : J -> JavaClass -> list PathObject;   (* getObjects(None, cls) *)
  nObjects : J -> Z;
  getRootObject : J -> PathObject;
  addPathObject : PathObject -> M J unit;
  removeObject : PathObject -> bool -> M J unit;
  removePathObjects : list PathObject -> M J unit;
  insertPathObjects : list PathObject -> M J bool;
}.

(** ** Image entries, weak references, the world *)

(** Modelled from the spec: the enclosing container
    ([paquo.images.QuPathProjectImageEntry], not under src/), of which the
    hierarchy reads the [_readonly] attribute with [getattr(i, "_readonly",
    False)]: the attribute may be missing. *)
Record QuPathProjectImageEntry : Type := { entry__readonly : option bool }.

(** [self._image_ref]: [weakref.ref(image)] or [lambda: None]. *)
Inductive image_ref : Type :=
| weakref_ref (addr : nat)
| lambda_None.

(** The mutable world: the Java store and the image entries that are
    alive, by address. An entry that was collected is absent from [heap];
    a weak reference does not keep it. *)
Record World (J : Type) : Type := mkWorld {
  java : J;
  heap : gmap nat QuPathProjectImageEntry;
}.
Arguments mkWorld {J} java heap.
Arguments java {J} w.
Arguments heap {J} w.

(** Calling a weak reference. *)
Definition call_ref (hp : gmap nat QuPathProjectImageEntry) (r : image_ref)
  : option QuPathProjectImageEntry :=
  match r with
  | weakref_ref a => hp !! a
  | lambda_None => None
  end.

(** The immutable part of a [QuPathPathObjectHierarchy] instance. Its
    [java_object] is the store of the world; the two proxies it owns are
    built by [QuPathPathObjectHierarchy.__init__] below. *)
Record Hierarchy : Type := { _image_ref : image_ref }.

(** [QuPathPathObjectHierarchy._readonly], a plain property. *)
Definition Hierarchy_readonly (hp : gmap nat QuPathProjectImageEntry) (h : Hierarchy) : bool :=
  match call_ref hp (_image_ref h) with
  | None => false   (* empty hierarchies can be modified! *)
  | Some i => default false (entry__readonly i)
  end.

(** ** cached_property *)

(** Modelled from the spec: [cached_property] ([paquo._utils], not under
    src/), the "Lazy Cache Cell": "returns the memoized value, computing and
    storing it on first call after construction or after the most recent
    invalidate". The value is kept per instance. [get] and [set] read and
    write the cell in the state. *)
Definition cached_property {St A} (get : St -> option A) (set : option A -> St -> St)
    (compute : M St A) : M St A :=
  fun st =>
    match get st with
    | Some v => (Ok v, st)
    | None =>
        match compute st with
        | (Ok v, st') => (Ok v, set (Some v) st')
        | (Raise e, st') => (Raise e, st')
        end
    end.

(** ** PathObjectProxy *)

Inductive mask : Type :=
| MaskSlice (s : slice)
| MaskSeq (l : list pyvalue).

(** A proxy instance: the three attributes set by the constructor and the
    two memoized attributes ([None]: not computed or deleted). The third
    cached property, [_java_hierarchy], memoizes the reference to the store,
    which never changes: method bodies read the store of the world. *)
Record PathObjectProxy : Type := mkProxy {
  _hierarchy : Hierarchy;
  _paquo_cls : PaquoClass;
  _mask : option mask;
  memo__readonly : option bool;
  memo__list : option (list PathObject);
}.

Definition set_memo__readonly (v : option bool) (p : PathObjectProxy) : PathObjectProxy :=
  mkProxy (_hierarchy p) (_paquo_cls p) (_mask p) v (memo__list p).
Definition set_memo__list (v : option (list PathObject)) (p : PathObjectProxy) : PathObjectProxy :=
  mkProxy (_hierarchy p) (_paquo_cls p) (_mask p) (memo__readonly p) v.

(** What [__getitem__] returns: a wrapped object or a derived proxy. *)
Inductive item : Type :=
| ItemObject (cls : PaquoClass) (obj : PathObject)
| ItemProxy (p : PathObjectProxy).

Inductive index : Type :=
| IInt (i : Z)
| ISlice (s : slice)
| ISeq (l : list pyvalue).

(** Truth value of [self._mask]: a slice object is always true, a sequence
    is true when it is not empty. *)
Definition truthy (m : option mask) : bool :=
  match m with
  | None => false
  | Some (MaskSlice _) => true
  | Some (MaskSeq l) => negb (bool_decide (l = []))
  end.

Module PathObjectProxy.
Section Methods.
Context {J : Type} `{JavaHierarchy J}.

(** The state a method runs in: [self] and the world. *)
Definition St : Type := PathObjectProxy * World J.

Definition self : M St PathObjectProxy := gets fst.
(** A call into the Java hierarchy. *)
Definition jcall {A} (c : M J A) : M St A :=
  fun '(p, w) => let '(r, s') := c (java w) in (r, (p, mkWorld s' (heap w))).

Definition mask_ok (mask : option mask) : bool :=
  match mask with
  | None => true
  | Some (MaskSlice _) => true
  | Some (MaskSeq l) => forallb isinstance_int l && (0 <? Z.of_nat (length l))
  end.

Definition __init__ (hierarchy : Hierarchy) (paquo_cls : PaquoClass)
    (mask : option mask) : result PathObjectProxy :=
  if negb (mask_ok mask) then
    Raise (TypeError "mask can be slice, or Sequence[int] or None. Got: <class 'list'>")
  else Ok (mkProxy hierarchy paquo_cls mask None None).

Definition _readonly : M St bool :=
  cached_property (fun st => memo__readonly (fst st))
    (fun v '(p, w) => (set_memo__readonly v p, w))
    (gets (fun '(p, w) =>
       Hierarchy_readonly (heap w) (_hierarchy p) || bool_decide (_mask p <> None))).

Definition _list : M St (list PathObject) :=
  cached_property (fun st => memo__list (fst st))
    (fun v '(p, w) => (set_memo__list v p, w))
    (fun '(p, w) =>
       let _list := getObjects (java w) (java_class (_paquo_cls p)) in
       (if truthy (_mask p) then
          match _mask p with
          | Some (MaskSlice m) => list_getslice _list m
          | Some (MaskSeq m) => comprehension (list_index _list) m
          | None => Ok _list
          end
        else Ok _list, (p, w))).

(** [delattr(self, "_list")]. The [cached_property] of [paquo._utils] (not
    under src/) is a descriptor with [__get__] and [__set__] and without
    [__delete__]: deleting the attribute raises AttributeError, whether the
    list was computed or not, and the memoized list stays where it is. *)
Definition delattr__list : M St unit := raise (AttributeError "__delete__").

Definition is_AttributeError (e : exception) : bool :=
  match e with
  | AttributeError _ => true
  | _ => false
  end.

(** [with suppress(AttributeError): delattr(self, "_list")]; the block
    never raises, this is the state it leaves. *)
Definition _list_invalidate_cache (st : St) : St :=
  snd (suppress is_AttributeError delattr__list st).

Definition requires (p : PathObjectProxy) (x : pyvalue) : exception :=
  TypeError ("requires " +:+ __name__ (_paquo_cls p) +:+ " instance got " +:+ class_name x).

(** [x.java_object] *)
Definition java_object_of (x : pyvalue) : result PathObject :=
  match x with
  | PyObj o => Ok (java_object o)
  | _ => Raise (TypeError "object has no attribute 'java_object'")
  end.

Definition add (x : pyvalue) : M St unit :=
  do p <- self;
  if truthy (_mask p) then raise ViewRestrictedError else
  do ro <- _readonly;
  if ro then raise ReadOnlyError else
  if negb (isinstance x (_paquo_cls p)) then raise (requires p x) else
  try_finally
    (do j <- lift (java_object_of x); jcall (addPathObject j))
    _list_invalidate_cache.

Definition discard (x : pyvalue) : M St unit :=
  do p <- self;
  if truthy (_mask p) then raise ViewRestrictedError else
  do ro <- _readonly;
  if ro then raise ReadOnlyError else
  if negb (isinstance x (_paquo_cls p)) then raise (requires p x) else
  try_finally
    (do j <- lift (java_object_of x); jcall (removeObject j true))
    _list_invalidate_cache.

Definition clear : M St unit :=
  do p <- self;
  if truthy (_mask p) then raise ViewRestrictedError else
  do ro <- _readonly;
  if ro then raise ReadOnlyError else
  try_finally
    (do l <- _list; jcall (removePathObjects l))
    _list_invalidate_cache.

(** The loop [while x.parent is not None: x = x.parent]: the object it
    ends on, and the number of times its body ran. *)
Fixpoint walk (x : _PathROIObject) : _PathROIObject * nat :=
  match x with
  | Topmost _ _ => (x, 0%nat)
  | Child _ _ up => let '(top, n) := walk up in (top, S n)
  end.

(** [__contains__], with the number of iterations of its loop. *)
Definition contains_traced (x : pyvalue) : M St (bool * nat) :=
  do p <- self;
  if negb (isinstance x (_paquo_cls p)) then ret (false, 0%nat) else
  match x with
  | PyObj o =>
      let '(top, n) := walk o in
      do root <- jcall (gets getRootObject);
      ret (bool_decide (java_object top = root), n)
  | _ => raise (TypeError "object has no attribute 'parent'")
  end.

Definition __contains__ (x : pyvalue) : M St bool :=
  do r <- contains_traced x; ret (fst r).

Definition __len__ : M St Z :=
  do l <- _list; ret (Z.of_nat (length l)).

Definition __getitem__ (i : index) : M St item :=
  do p <- self;
  match i with
  | IInt i =>
      do l <- _list;
      do o <- lift (list_getitem l i);
      ret (ItemObject (_paquo_cls p) o)
  | ISlice i =>
      do mask <-
        match _mask p with
        | None => ret (MaskSlice i)
        | Some (MaskSlice m) =>
            do n <- jcall (gets nObjects);
            let _r := range1 n in
            do _s <- lift (rbind (range_getslice _r m) (fun r => range_getslice r i));
            ret (MaskSlice (slice_of_range _s))
        | Some (MaskSeq m) =>
            do l <- lift (list_getslice m i); ret (MaskSeq l)
        end;
      do q <- lift (__init__ (_hierarchy p) (_paquo_cls p) (Some mask));
      ret (ItemProxy q)
  | ISeq i =>
      do mask <-
        match _mask p with
        | None => ret (MaskSeq i)
        | Some (MaskSlice m) =>
            do n <- jcall (gets nObjects);
            let _r := range1 n in
            do _s <- lift (range_getslice _r m);
            do l <- lift (comprehension (range_index _s) i);
            ret (MaskSeq (PyInt <$> l))
        | Some (MaskSeq m) =>
            do l <- lift (comprehension (list_index m) i); ret (MaskSeq l)
        end;
      do q <- lift (__init__ (_hierarchy p) (_paquo_cls p) (Some mask));
      ret (ItemProxy q)
  end.

(** [__iter__]: the generator reads [self._list] once, when it is first
    advanced, and wraps each object as it yields it; this is the list of
    what it yields when run to its end. *)
Definition __iter__ : M St (list item) :=
  do p <- self;
  do l <- _list;
  ret (ItemObject (_paquo_cls p) <$> l).

(** [update = MutableSetABC.__ior__], the mixin method of
    [collections.abc.MutableSet]: [for value in it: self.add(value)]. The
    iterable is given by the list of the values it yields. *)
Fixpoint update (it : list pyvalue) : M St unit :=
  match it with
  | [] => ret tt
  | value :: it' => exec add value; update it'
  end.

End Methods.
End PathObjectProxy.

(** ** Geojson records and the collaborators of load_geojson *)

(** A geojson feature as [load_geojson] reads it. The keys [geometry] and
    [properties] are subscripted unconditionally and are fields here; the
    keys read with [get] or tested with [in] are optional. [G] is the type
    of geometry descriptions (the value under ["geometry"]). *)
Record classification_dict : Type := { name : option string }.
Record properties_dict : Type := {
  object_type : option string;
  classification : option classification_dict;
}.
Record annotation (G : Type) : Type := mkAnnotation {
  geometry : G;
  properties : properties_dict;
  id : option string;
}.
Arguments mkAnnotation {G} geometry properties id.
Arguments geometry {G} a.
Arguments properties {G} a.
Arguments id {G} a.

(** The argument of [load_geojson]: a list of features, or anything else. *)
Inductive geojson_arg (G : Type) : Type :=
| GeoList (l : list (annotation G))
| NotAList.
Arguments GeoList {G} l.
Arguments NotAList {G}.

(** shapely, [paquo.java.qupath_version] and
    [QuPathPathAnnotationObject.from_geojson]: what the loop of
    [load_geojson] calls. [buffer s] is [s.buffer(0, 1)]; [from_geojson]
    yields the Java object of the annotation it builds. Each call may
    raise. *)
Class Collaborators (G Geom Version : Type) : Type := {
  shape : G -> result Geom;
  is_valid : Geom -> bool;
  buffer : Geom -> result Geom;
  __geo_interface__ : Geom -> G;
  qupath_version : option Version;
  version_le : Version -> string -> bool;
  from_geojson : annotation G -> result PathObject;
}.

(** [collections.Counter] keyed by classification name. *)
Definition counter_incr (k : string) (c : gmap string nat) : gmap string nat :=
  <[k := S (default 0%nat (c !! k))]> c.

(** [sum(skipped.values())] *)
Definition counter_total (c : gmap string nat) : nat :=
  map_fold (fun _ v acc => (v + acc)%nat) 0%nat c.

(** A [QuPathPathObjectHierarchy] instance with the two proxies it builds in
    [__init__] and keeps for its lifetime. *)
Record Instance : Type := mkInstance {
  core : Hierarchy;
  _annotations : PathObjectProxy;
  _detections : PathObjectProxy;
}.

(** [from_shapely] of the three wrapper classes ([paquo.pathobjects], not
    under src/): from a geometry, an optional class, optional measurements
    and a probability it builds a new Java object of the wrapper's Java
    class, or raises. A new object has no parent. *)
Class Factory (Roi PathClass Measurements Float : Type) : Type := {
  from_shapely : PaquoClass -> Roi -> option PathClass -> option Measurements -> Float
                 -> result PathObject;
}.

Module QuPathPathObjectHierarchy.
Section Methods.
Context {J : Type} `{JavaHierarchy J}.
Context {G Geom Version : Type} `{Collaborators G Geom Version}.

(** [__init__(hierarchy, _image_ref=image)]: [image] is the address of the
    image entry handed in, if any (an entry object is true). The result
    is the instance with its [_annotations] and [_detections]. *)
Definition __init__ (image : option nat)
  : result (Hierarchy * PathObjectProxy * PathObjectProxy) :=
  let self := {| _image_ref := match image with
                               | Some a => weakref_ref a
                               | None => lambda_None
                               end |} in
  rbind (PathObjectProxy.__init__ self QuPathPathAnnotationObject None) (fun _annotations =>
  rbind (PathObjectProxy.__init__ self QuPathPathDetectionObject None) (fun _detections =>
  Ok (self, _annotations, _detections))).

Definition _readonly (self : Hierarchy) : M (World J) bool :=
  gets (fun w => Hierarchy_readonly (heap w) self).

(** The compatibility table of the loop. *)
Definition object_id_table (object_type : string) : option string :=
  if String.eqb object_type "annotation" then Some "PathAnnotationObject"
  else if String.eqb object_type "detection" then Some "PathDetectionObject"
  else if String.eqb object_type "tile" then Some "PathTileObject"
  else if String.eqb object_type "cell" then Some "PathCellObject"
  else if String.eqb object_type "tma_core" then Some "TMACoreObject"
  else if String.eqb object_type "root" then Some "PathRootObject"
  else if String.eqb object_type "unknown" then Some "PathAnnotationObject"
  else None.

(** The number of [buffer] calls of the repair, and its outcome. *)
Definition repair (s : Geom) : nat * result Geom :=
  if negb (is_valid s) then
    match buffer s with
    | Raise e => (1%nat, Raise e)
    | Ok s =>
        if negb (is_valid s) then
          match buffer s with
          | Raise e => (2%nat, Raise e)
          | Ok s =>
              if negb (is_valid s) then (2%nat, Raise (ValueError "invalid geometry"))
              else (2%nat, Ok s)
          end
        else (1%nat, Ok s)
    end
  else (0%nat, Ok s).

(** The body of the [try] for one record. The record is updated in
    place in the source; the updated record is the one converted. *)
Definition try_body (fix_invalid : bool) (a : annotation G) : result PathObject :=
  rbind
    (if fix_invalid then
       rbind (shape (geometry a)) (fun s =>
       rbind (snd (repair s)) (fun s =>
       Ok (mkAnnotation (__geo_interface__ s) (properties a) (id a))))
     else Ok a) (fun a =>
  let a :=
    if match qupath_version with Some v => version_le v "0.2.3" | None => false end
       && negb (bool_decide (is_Some (id a)))
    then
      let object_type := default "unknown" (object_type (properties a)) in
      let object_id := default "PathAnnotationObject" (object_id_table object_type) in
      mkAnnotation (geometry a) (properties a) (Some object_id)
    else a in
  from_geojson a).

(** [except (IllegalArgumentException, ValueError)] *)
Definition caught (e : exception) : bool :=
  match e with
  | IllegalArgumentException _ | ValueError _ => true
  | _ => false
  end.

(** [annotation["properties"].get("classification", {}).get("name", "UNDEFINED")] *)
Definition class_ (a : annotation G) : string :=
  match classification (properties a) with
  | None => "UNDEFINED"
  | Some c => default "UNDEFINED" (name c)
  end.

(** The [for] loop, from the state [(aos, skipped)] it has reached. An
    exception that the handler does not catch leaves the loop. *)
Fixpoint loop (fix_invalid : bool) (geojson : list (annotation G))
    (aos : list PathObject) (skipped : gmap string nat)
  : result (list PathObject * gmap string nat) :=
  match geojson with
  | [] => Ok (aos, skipped)
  | a :: rest =>
      match try_body fix_invalid a with
      | Ok ao => loop fix_invalid rest (aos ++ [ao]) skipped
      | Raise err =>
          if caught err then loop fix_invalid rest aos (counter_incr (class_ a) skipped)
          else Raise err
      end
  end.

Definition load_geojson (self : Hierarchy) (geojson : geojson_arg G)
    (raise_on_skip fix_invalid : bool) : M (World J) bool :=
  do ro <- _readonly self;
  if ro then raise ReadOnlyError else
  match geojson with
  | NotAList => raise (TypeError "requires a geojson list")
  | GeoList geojson =>
      do r <- lift (loop fix_invalid geojson [] ∅);
      let '(aos, skipped) := r in
      exec (if negb (bool_decide (skipped = ∅)) then
              let n_skipped := counter_total skipped in
              if raise_on_skip then
                raise (ValueError ("could not convert " +:+ pretty n_skipped +:+ " annotations"))
              else ret tt
            else ret tt);
      fun w => let '(r, s') := insertPathObjects aos (java w) in (r, mkWorld s' (heap w))
  end.

End Methods.

Section Convenience.
Context {J : Type} `{JavaHierarchy J}.
Context {Roi PathClass Measurements Float : Type} `{Factory Roi PathClass Measurements Float}.

(** The state a method of the hierarchy runs in: the instance with its two
    proxies, and the world. *)
Definition HSt : Type := Instance * World J.

(** A method call on one of the two proxies of the instance. *)
Definition on_annotations {A} (m : M (@PathObjectProxy.St J) A) : M HSt A :=
  fun '(i, w) =>
    let '(r, (p, w')) := m (_annotations i, w) in
    (r, (mkInstance (core i) p (_detections i), w')).

Definition on_detections {A} (m : M (@PathObjectProxy.St J) A) : M HSt A :=
  fun '(i, w) =>
    let '(r, (p, w')) := m (_detections i, w) in
    (r, (mkInstance (core i) (_annotations i) p, w')).

(** [__init__], as an instance. *)
Definition new (image : option nat) : Instance :=
  let self := {| _image_ref := match image with
                               | Some a => weakref_ref a
                               | None => lambda_None
                               end |} in
  mkInstance self (mkProxy self QuPathPathAnnotationObject None None None)
    (mkProxy self QuPathPathDetectionObject None None None).

(** [__len__]: [int(self.java_object.nObjects())] *)
Definition __len__ : M HSt Z := gets (fun '(_, w) => nObjects (java w)).

(** [root]: the root object, wrapped as an annotation; it has no parent. *)
Definition root : M HSt _PathROIObject :=
  gets (fun '(_, w) => Topmost QuPathPathAnnotationObject (getRootObject (java w))).

(** The three convenience methods: the readonly check on the hierarchy,
    the construction of the object, [add] on the proxy, the object. *)
Definition add_annotation (roi : Roi) (path_class : option PathClass)
    (measurements : option Measurements) (path_class_probability : Float) : M HSt item :=
  do ro <- gets (fun '(i, w) => Hierarchy_readonly (heap w) (core i));
  if ro then raise ReadOnlyError else
  do obj <- lift (from_shapely QuPathPathAnnotationObject
                    roi path_class measurements path_class_probability);
  exec on_annotations (PathObjectProxy.add (PyObj (Topmost QuPathPathAnnotationObject obj)));
  ret (ItemObject QuPathPathAnnotationObject obj).

Definition add_detection (roi : Roi) (path_class : option PathClass)
    (measurements : option Measurements) (path_class_probability : Float) : M HSt item :=
  do ro <- gets (fun '(i, w) => Hierarchy_readonly (heap w) (core i));
  if ro then raise ReadOnlyError else
  do obj <- lift (from_shapely QuPathPathDetectionObject
                    roi path_class measurements path_class_probability);
  exec on_detections (PathObjectProxy.add (PyObj (Topmost QuPathPathDetectionObject obj)));
  ret (ItemObject QuPathPathDetectionObject obj).

Definition add_tile (roi : Roi) (path_class : option PathClass)
    (measurements : option Measurements) (path_class_probability : Float) : M HSt item :=
  do ro <- gets (fun '(i, w) => Hierarchy_readonly (heap w) (core i));
  if ro then raise ReadOnlyError else
  do obj <- lift (from_shapely QuPathPathTileObject
                    roi path_class measurements path_class_probability);
  exec on_detections (PathObjectProxy.add (PyObj (Topmost QuPathPathTileObject obj)));
  ret (ItemObject QuPathPathTileObject obj).

End Convenience.
End QuPathPathObjectHierarchy.

(** ** A list-backed store

    An instance of the store interface: the objects in insertion order
    under a root, nothing ever raised. It is used to run the definitions on
    concrete inputs. *)
Definition instance_of (c : JavaClass) (o : PathObject) : bool :=
  match jclass o, c with
  | PathRootObject, PathRootObject => true
  | PathAnnotationObject, PathAnnotationObject => true
  | PathDetectionObject, PathDetectionObject => true
  | PathTileObject, PathTileObject => true
  | PathTileObject, PathDetectionObject => true
  | _, _ => false
  end.

Definition the_root : PathObject := JObj 0 PathRootObject.

Definition remove_all (gone : list PathObject) (l : list PathObject) : list PathObject :=
  filter (fun o => o ∉ gone) l.

Global Instance ListStore : JavaHierarchy (list PathObject) := {|
  getObjects s c := filter (fun o => instance_of c o = true) s;
  nObjects s := Z.of_nat (length s);
  getRootObject _ := the_root;
  addPathObject o := modify (fun s => (s ++ [o])%list);
  removeObject o _ := modify (remove_all [o]);
  removePathObjects l := modify (remove_all l);
  insertPathObjects l := fun s => (Ok (negb (bool_decide (l = []))), (s ++ l)%list);
|}.

(** A store whose mutators all raise and change nothing. *)
Global Instance BrokenStore : JavaHierarchy unit := {|
  getObjects _ _ := [];
  nObjects _ := 0;
  getRootObject _ := the_root;
  addPathObject _ := raise (JavaException "java.lang.IllegalStateException");
  removeObject _ _ := raise (JavaException "java.lang.IllegalStateException");
  removePathObjects _ := raise (JavaException "java.lang.IllegalStateException");
  insertPathObjects _ := raise (JavaException "java.lang.IllegalStateException");
|}.

(** Geometries for the examples: a geometry is a pair of the identity of
    the object it converts to and the number of repair passes it still
    needs; [buffer] takes one pass off. *)
Global Instance CountdownShapely : Collaborators (nat * nat) (nat * nat) string := {|
  shape g := Ok g;
  is_valid s := bool_decide (snd s = 0%nat);
  buffer s := Ok (fst s, pred (snd s));
  __geo_interface__ s := s;
  qupath_version := None;
  version_le _ _ := false;
  from_geojson a := Ok (JObj (fst (geometry a)) PathAnnotationObject);
|}.

(** ** Specification-side notions *)

(** [top] is the topmost ancestor of [o]: the end of its parent chain. *)
Inductive topmost_ancestor : _PathROIObject -> _PathROIObject -> Prop :=
| topmost_here o : parent o = None -> topmost_ancestor o o
| topmost_up o p top : parent o = Some p -> topmost_ancestor p top -> topmost_ancestor o top.

(** Resolving a restriction directly against a list: [l[m]]. *)
Definition restrict {A} (l : list A) (m : mask) : result (list A) :=
  match m with
  | MaskSlice s => list_getslice l s
  | MaskSeq xs => comprehension (list_index l) xs
  end.

(** [l[m1][m2][i]] *)
Definition restrict_twice_then_index {A} (l : list A) (m1 m2 : mask) (i : Z) : result A :=
  rbind (restrict l m1) (fun l1 => rbind (restrict l1 m2) (fun l2 => list_getitem l2 i)).

Definition index_of_mask (m : mask) : index :=
  match m with
  | MaskSlice s => ISlice s
  | MaskSeq xs => ISeq xs
  end.

(** [view[m1][m2][i]] through the proxies: each derived proxy is a fresh
    object that receives the next [__getitem__]. *)
Definition view_getitem3 {J} `{JavaHierarchy J} (view : PathObjectProxy)
    (m1 m2 : mask) (i : Z) (w : World J) : result item :=
  match PathObjectProxy.__getitem__ (index_of_mask m1) (view, w) with
  | (Ok (ItemProxy v1), (_, w1)) =>
      match PathObjectProxy.__getitem__ (index_of_mask m2) (v1, w1) with
      | (Ok (ItemProxy v2), (_, w2)) => fst (PathObjectProxy.__getitem__ (IInt i) (v2, w2))
      | (Ok (ItemObject _ _), _) => Raise (TypeError "object is not subscriptable")
      | (Raise e, _) => Raise e
      end
  | (Ok (ItemObject _ _), _) => Raise (TypeError "object is not subscriptable")
  | (Raise e, _) => Raise e
  end.

(** The readonly state a base view acts on: the memoized one if there is
    one, else the hierarchy's at this moment. *)
Definition effective_readonly {J} (p : PathObjectProxy) (w : World J) : bool :=
  match memo__readonly p with
  | Some b => b
  | None => Hierarchy_readonly (heap w) (_hierarchy p) || bool_decide (_mask p <> None)
  end.

(** A record fails conversion: the body of the [try] raises one of the two
    exceptions of the handler. *)
Definition fails_conversion {G Geom Version} `{Collaborators G Geom Version}
    (fix_invalid : bool) (a : annotation G) : bool :=
  match QuPathPathObjectHierarchy.try_body fix_invalid a with
  | Raise e => QuPathPathObjectHierarchy.caught e
  | Ok _ => false
  end.

(** A record is processed: converted, or failed and tallied. *)
Definition processed {G Geom Version} `{Collaborators G Geom Version}
    (fix_invalid : bool) (a : annotation G) : Prop :=
  match QuPathPathObjectHierarchy.try_body fix_invalid a with
  | Raise e => QuPathPathObjectHierarchy.caught e = true
  | Ok _ => True
  end.

(** The number of records of a batch that fail conversion, the objects the
    others convert to, and the tally of the failures by classification
    name. *)
Definition n_failed {G Geom Version} `{Collaborators G Geom Version}
    (fix_invalid : bool) (records : list (annotation G)) : nat :=
  length (filter (fun a => fails_conversion fix_invalid a = true) records).

Definition converted {G Geom Version} `{Collaborators G Geom Version}
    (fix_invalid : bool) (records : list (annotation G)) : list PathObject :=
  omap (fun a => match QuPathPathObjectHierarchy.try_body fix_invalid a with
                 | Ok ao => Some ao
                 | Raise _ => None
                 end) records.

Definition tally {G Geom Version} `{Collaborators G Geom Version}
    (fix_invalid : bool) (records : list (annotation G)) (skipped : gmap string nat)
  : gmap string nat :=
  foldl (fun c a => if fails_conversion fix_invalid a
                    then counter_incr (QuPathPathObjectHierarchy.class_ a) c else c)
        skipped records.


(** The position an integer index [i] reads in a sequence of length [n]:
    a negative index counts from the end. *)
Definition normalized (n i : Z) : Z := if i <? 0 then i + n else i.

(** Two outcomes are the same: the same value, or an exception on both
    sides. *)
Definition same_outcome {A} (r1 r2 : result A) : Prop :=
  match r1, r2 with
  | Ok a, Ok b => a = b
  | Raise _, Raise _ => True
  | _, _ => False
  end.

(** What no method changes on a proxy: the hierarchy, the class and the
    mask it was built with, and its readonly state once memoized. *)
Definition stable (p p' : PathObjectProxy) : Prop :=
  _hierarchy p' = _hierarchy p /\ _paquo_cls p' = _paquo_cls p /\ _mask p' = _mask p
  /\ forall b, memo__readonly p = Some b -> memo__readonly p' = Some b.

(** A computation on a proxy that keeps those, and one that leaves the
    world alone. *)
Definition keeps_identity {J A} (c : M (@PathObjectProxy.St J) A) : Prop :=
  forall p w, stable p (fst (snd (c (p, w)))).

Definition reads_only {J A} (c : M (@PathObjectProxy.St J) A) : Prop :=
  forall p w, snd (snd (c (p, w))) = w.

(** A slice that runs forward: no step, or a positive one. *)
Definition forward (s : slice) : bool :=
  match step s with
  | None => true
  | Some k => 0 <? k
  end.

(** The elements of [l] at the positions [ps], in that order. *)
Definition sel {A} (l : list A) (ps : list Z) : list A :=
  omap (fun p => l !! Z.to_nat p) ps.

(** [list(view[i])] for a slice or an index list [i]: the derived proxy,
    then its list. *)
Definition derive_and_list {J} `{JavaHierarchy J} (i : index)
    (st : PathObjectProxy * World J) : result (list PathObject) :=
  match PathObjectProxy.__getitem__ i st with
  | (Ok (ItemProxy q), (_, w)) => fst (PathObjectProxy._list (q, w))
  | (Ok (ItemObject _ _), _) => Raise (TypeError "object is not subscriptable")
  | (Raise e, _) => Raise e
  end.

(** The list of a view, from the objects of its class: the restriction by
    its mask if it has one. *)
Definition list_of {A} (l : list A) (m : option mask) : result (list A) :=
  match m with
  | None => Ok l
  | Some m => restrict l m
  end.

(** The constructor leaves a proxy with an acceptable mask; no method
    changes it. *)
Definition well_formed (p : PathObjectProxy) : Prop :=
  PathObjectProxy.mask_ok (_mask p) = true.

(** The number of records of a batch that fail conversion and carry the
    classification name [k]. *)
Definition n_failed_as {G Geom Version} `{Collaborators G Geom Version}
    (fix_invalid : bool) (k : string) (records : list (annotation G)) : nat :=
  length (filter (fun a => fails_conversion fix_invalid a = true
                           /\ QuPathPathObjectHierarchy.class_ a = k) records).

(** ** Concrete inputs *)

Definition ann (n : nat) : PathObject := JObj n PathAnnotationObject.
Definition det (n : nat) : PathObject := JObj n PathDetectionObject.

(** A hierarchy without image and its annotations view. *)
Definition standalone : Hierarchy := {| _image_ref := lambda_None |}.
Definition annotations_of (h : Hierarchy) : PathObjectProxy :=
  mkProxy h QuPathPathAnnotationObject None None None.

(** Three annotations, and the same with two detections among them. *)
Definition three_annotations : World (list PathObject) :=
  mkWorld [ann 1; ann 2; ann 3] ∅.
Definition mixed_store : World (list PathObject) :=
  mkWorld [ann 1; det 4; ann 2; det 5; ann 3] ∅.

(** A factory for the examples: every geometry is a number, the identity
    of the object built from it. *)
Global Instance NumberedShapes : Factory nat string unit unit := {|
  from_shapely cls roi _ _ _ := Ok (JObj roi (java_class cls));
|}.

(** A converter for the examples that fails outside the handler: the
    geometry description is a string and an empty one makes the converter
    raise a KeyError. *)
Global Instance PickyConverter : Collaborators string nat string := {|
  shape g := Ok (String.length g);
  is_valid s := true;
  buffer s := Ok s;
  __geo_interface__ s := "Polygon";
  qupath_version := None;
  version_le _ _ := false;
  from_geojson a := if String.eqb (geometry a) ""
                    then Raise (KeyError "coordinates")
                    else Ok (JObj (String.length (geometry a)) PathAnnotationObject);
|}.

Definition feature (g : string) : annotation string :=
  mkAnnotation g {| object_type := None; classification := None |} None.

(** An old QuPath for the examples: the version compares below 0.2.3 and
    the converter builds the object its [id] names. *)
Global Instance LegacyQuPath : Collaborators Z Z string := {|
  shape g := Ok g;
  is_valid s := true;
  buffer s := Ok s;
  __geo_interface__ s := s;
  qupath_version := Some "0.2.0";
  version_le _ _ := true;
  from_geojson a :=
    match id a with
    | Some tag => Ok (JObj (Z.to_nat (geometry a))
                        (if String.eqb tag "PathDetectionObject" then PathDetectionObject
                         else if String.eqb tag "PathTileObject" then PathTileObject
                         else PathAnnotationObject))
    | None => Raise (IllegalArgumentException "no id")
    end;
|}.

(** Whether the compatibility layer of [load_geojson] is active. *)
Definition old_version {G Geom Version} `{Collaborators G Geom Version} : bool :=
  match qupath_version with
  | Some v => version_le v "0.2.3"
  | None => false
  end.

Definition six_annotations : World (list PathObject) :=
  mkWorld [ann 1; ann 2; ann 3; ann 4; ann 5; ann 6] ∅.

(** A hierarchy of the image entry at address 7. *)
Definition of_image : Hierarchy := {| _image_ref := weakref_ref 7 |}.
Definition image_world (ro : bool) (s : list PathObject) : World (list PathObject) :=
  mkWorld s {[ 7%nat := {| entry__readonly := Some ro |} ]}.

Definition record (n passes : nat) (cls : option string) : annotation (nat * nat) :=
  mkAnnotation (n, passes)
    {| object_type := Some "annotation"; classification := Some {| name := cls |} |}
    (Some "PathAnnotationObject").

Definition empty_world : World (list PathObject) := mkWorld [] ∅.

(** Five records, the third of which needs three repair passes. *)
Definition batch_of_five : list (annotation (nat * nat)) :=
  [record 1 0 (Some "Tumor"); record 2 1 (Some "Tumor"); record 3 3 (Some "Stroma");
   record 4 2 None; record 5 0 (Some "Stroma")].

(** * Properties *)

Import PathObjectProxy.

(** ** Python sequences on examples *)

Example slice_indices_reverse :
  slice_indices (Slice None None (Some (-1))) 3 = Ok (2, -1, -1).
Proof. reflexivity. Qed.

Example list_getslice_reverse :
  list_getslice ["a"; "b"; "c"] (Slice None None (Some (-1))) = Ok ["c"; "b"; "a"].
Proof. reflexivity. Qed.

Example list_getslice_tail :
  list_getslice ["a"; "b"; "c"] (Slice (Some (-2)) None None) = Ok ["b"; "c"].
Proof. reflexivity. Qed.

Example list_getslice_wrapped_stop :
  list_getslice ["a"; "b"; "c"] (Slice (Some 2) (Some (-1)) (Some (-1))) = Ok [].
Proof. reflexivity. Qed.

Example range_getslice_reverse :
  range_getslice (range1 3) (Slice None None (Some (-1))) = Ok (Range 2 (-1) (-1)).
Proof. reflexivity. Qed.

(** ** Composition of masks *)

(** C2: the composition of two masks does not always resolve like the
    nested restriction of the object list. On three annotations,
    [annotations[::-1][:][0]] must be the last annotation; the composed
    mask is [slice(2, -1, -1)], whose stop -1 counts from the end, so the
    derived view is empty and the index is out of range. On the same
    annotations among two detections, [annotations[-2:][0:1][0]] must be
    the second annotation; the composition resolves the outer slice
    against the count of all objects, five, the composed mask is
    [slice(3, 4, 1)], and the derived view is empty again. *)
Theorem mask_composition_diverges :
  let reversed := MaskSlice (Slice None None (Some (-1))) in
  let all := MaskSlice (Slice None None None) in
  let last_two := MaskSlice (Slice (Some (-2)) None None) in
  let first := MaskSlice (Slice (Some 0) (Some 1) None) in
  let view := annotations_of standalone in
  (getObjects (java three_annotations) (java_class (_paquo_cls view)) = [ann 1; ann 2; ann 3]
   /\ restrict_twice_then_index [ann 1; ann 2; ann 3] reversed all 0 = Ok (ann 3)
   /\ view_getitem3 view reversed all 0 three_annotations
      = Raise (IndexError "list index out of range"))
  /\ (getObjects (java mixed_store) (java_class (_paquo_cls view)) = [ann 1; ann 2; ann 3]
      /\ restrict_twice_then_index [ann 1; ann 2; ann 3] last_two first 0 = Ok (ann 2)
      /\ view_getitem3 view last_two first 0 mixed_store
         = Raise (IndexError "list index out of range")).
Proof. repeat split. Qed.

(** The masks the two compositions produce. *)
Example composed_mask_reversed :
  exists v1 v2,
    PathObjectProxy.__getitem__ (ISlice (Slice None None (Some (-1))))
      (annotations_of standalone, three_annotations)
    = (Ok (ItemProxy v1), (annotations_of standalone, three_annotations))
    /\ PathObjectProxy.__getitem__ (ISlice (Slice None None None)) (v1, three_annotations)
       = (Ok (ItemProxy v2), (v1, three_annotations))
    /\ _mask v2 = Some (MaskSlice (Slice (Some 2) (Some (-1)) (Some (-1))))
    /\ fst (PathObjectProxy._list (v2, three_annotations)) = Ok [].
Proof. do 2 eexists. repeat split. Qed.

Example composed_mask_mixed :
  exists v1 v2,
    PathObjectProxy.__getitem__ (ISlice (Slice (Some (-2)) None None))
      (annotations_of standalone, mixed_store)
    = (Ok (ItemProxy v1), (annotations_of standalone, mixed_store))
    /\ PathObjectProxy.__getitem__ (ISlice (Slice (Some 0) (Some 1) None)) (v1, mixed_store)
       = (Ok (ItemProxy v2), (v1, mixed_store))
    /\ _mask v2 = Some (MaskSlice (Slice (Some 3) (Some 4) (Some 1)))
    /\ fst (PathObjectProxy._list (v2, mixed_store)) = Ok [].
Proof. do 2 eexists. repeat split. Qed.

(** From a base view a single mask resolves directly: the derived view
    carries the mask as given and its list is the restricted object list. *)
Lemma base_view_getitem_mask {J} `{JavaHierarchy J} (view : PathObjectProxy) (w : World J)
    (m : mask) :
  _mask view = None ->
  mask_ok (Some m) = true ->
  exists v,
    PathObjectProxy.__getitem__ (index_of_mask m) (view, w) = (Ok (ItemProxy v), (view, w))
    /\ _mask v = Some m
    /\ fst (PathObjectProxy._list (v, w))
       = restrict (getObjects (java w) (java_class (_paquo_cls view))) m.
Proof.
  intros Hbase Hok.
  exists (mkProxy (_hierarchy view) (_paquo_cls view) (Some m) None None).
  assert (truthy (Some m) = true) as Ht.
  { destruct m as [s|l]; [reflexivity|].
    simpl in *. apply andb_true_iff in Hok as [_ Hlen].
    destruct l; [discriminate|reflexivity]. }
  split; [|split; [reflexivity|]].
  - destruct m as [s|l];
      unfold PathObjectProxy.__getitem__, PathObjectProxy.__init__, bind, lift, ret,
        PathObjectProxy.self, gets; simpl; rewrite Hbase; simpl in *; rewrite ?Hok;
      reflexivity.
  - unfold PathObjectProxy._list, cached_property. simpl memo__list. cbv iota beta.
    simpl _mask. rewrite Ht. simpl _paquo_cls.
    destruct m as [s|l]; simpl restrict.
    + destruct (list_getslice _ s); reflexivity.
    + destruct (comprehension _ l); reflexivity.
Qed.

(** ** Construction of a proxy *)

Lemma forallb_isinstance_int_fmap (zs : list Z) :
  forallb isinstance_int (PyInt <$> zs) = true.
Proof. induction zs as [|z zs IH]; simpl; auto. Qed.

Lemma init_ok_inv h c m p :
  __init__ h c m = Ok p -> p = mkProxy h c m None None /\ mask_ok m = true.
Proof.
  unfold __init__. destruct (mask_ok m); simpl; intros E; inversion E; auto.
Qed.

(** The constructor's check makes "the mask is true" and "the mask is not
    None" the same thing. *)
Lemma truthy_of_mask_ok (m : option mask) :
  mask_ok m = true -> truthy m = bool_decide (m <> None).
Proof.
  destruct m as [[s|l]|]; unfold truthy, mask_ok; intros Hok.
  - rewrite bool_decide_eq_true_2; [reflexivity|discriminate].
  - apply andb_true_iff in Hok as [_ Hlen].
    destruct l as [|x l]; [discriminate|].
    rewrite (bool_decide_eq_false_2 (x :: l = [])) by discriminate.
    rewrite bool_decide_eq_true_2; [reflexivity|discriminate].
  - rewrite bool_decide_eq_false_2; [reflexivity|]. intros Hn. apply Hn. reflexivity.
Qed.

(** C8: an empty index list is refused by the constructor with a
    TypeError; no mask, any slice, and any non-empty list of integers are
    accepted and yield a proxy carrying that mask and empty caches. *)
Theorem init_mask_validation (h : Hierarchy) (c : PaquoClass) :
  (exists msg, __init__ h c (Some (MaskSeq [])) = Raise (TypeError msg))
  /\ __init__ h c None = Ok (mkProxy h c None None None)
  /\ (forall s, __init__ h c (Some (MaskSlice s)) = Ok (mkProxy h c (Some (MaskSlice s)) None None))
  /\ (forall z zs,
        __init__ h c (Some (MaskSeq (PyInt <$> z :: zs)))
        = Ok (mkProxy h c (Some (MaskSeq (PyInt <$> z :: zs))) None None)).
Proof.
  repeat split.
  - eexists. reflexivity.
  - intros z zs. unfold __init__, mask_ok.
    rewrite forallb_isinstance_int_fmap. reflexivity.
Qed.

(** A sequence holding something that is not an integer is refused too. *)
Lemma init_rejects_non_int h c (l1 l2 : list pyvalue) (s : string) :
  exists msg, __init__ h c (Some (MaskSeq (l1 ++ PyStr s :: l2))) = Raise (TypeError msg).
Proof.
  unfold __init__, mask_ok.
  assert (forallb isinstance_int (l1 ++ PyStr s :: l2) = false) as ->.
  { rewrite forallb_app. simpl. apply andb_false_r. }
  eexists. reflexivity.
Qed.

(** ** Mutation through a derived view *)

(** C4: on a derived view (a proxy the constructor accepted, with a mask),
    [add], [discard] and [clear] raise the "cannot modify view" IOError,
    whatever the argument, and leave the store, the world and the proxy as
    they were. *)
Theorem derived_view_mutators_fail {J} `{JavaHierarchy J}
    (p : PathObjectProxy) (w : World J) (x : pyvalue) :
  mask_ok (_mask p) = true ->
  _mask p <> None ->
  add x (p, w) = (Raise ViewRestrictedError, (p, w))
  /\ discard x (p, w) = (Raise ViewRestrictedError, (p, w))
  /\ clear (p, w) = (Raise ViewRestrictedError, (p, w)).
Proof.
  intros Hok Hmask.
  assert (truthy (_mask p) = true) as Ht.
  { rewrite truthy_of_mask_ok by assumption. apply bool_decide_eq_true_2. assumption. }
  unfold add, discard, clear, bind, self, gets; simpl.
  rewrite Ht. auto.
Qed.

Lemma derived_view_mutators_fail_witness :
  let p := mkProxy standalone QuPathPathAnnotationObject
             (Some (MaskSlice (Slice (Some 1) None None))) None (Some [ann 2; ann 3]) in
  add (PyObj (Topmost QuPathPathAnnotationObject (ann 9))) (p, three_annotations)
    = (Raise ViewRestrictedError, (p, three_annotations))
  /\ discard (PyObj (Topmost QuPathPathAnnotationObject (ann 9))) (p, three_annotations)
    = (Raise ViewRestrictedError, (p, three_annotations))
  /\ clear (p, three_annotations) = (Raise ViewRestrictedError, (p, three_annotations)).
Proof.
  intros p. apply (derived_view_mutators_fail p three_annotations).
  - reflexivity.
  - discriminate.
Defined.

(** ** Readonly state of the hierarchy *)

Lemma readonly_of_absent {J} `{JavaHierarchy J} (self : Hierarchy) (w : World J) :
  call_ref (heap w) (_image_ref self) = None ->
  QuPathPathObjectHierarchy._readonly self w = (Ok false, w).
Proof.
  intros Href. unfold QuPathPathObjectHierarchy._readonly, gets, Hierarchy_readonly.
  rewrite Href. reflexivity.
Qed.

(** C6: when the weak reference to the enclosing container resolves to
    nothing (none was supplied, or it expired), the hierarchy is writable:
    [_readonly] is false, whatever the heap otherwise holds. *)
Theorem absent_container_is_writable {J} `{JavaHierarchy J}
    (self : Hierarchy) (w : World J) :
  call_ref (heap w) (_image_ref self) = None ->
  QuPathPathObjectHierarchy._readonly self w = (Ok false, w).
Proof. apply readonly_of_absent. Qed.

(** A readonly container that expired: the entry at address 7 is deleted
    from the heap. *)
Lemma absent_container_is_writable_witness :
  Hierarchy_readonly (heap (image_world true [])) of_image = true
  /\ QuPathPathObjectHierarchy._readonly of_image (mkWorld (@nil PathObject) (delete 7%nat (heap (image_world true []))))
     = (Ok false, mkWorld (@nil PathObject) (delete 7%nat (heap (image_world true [])))).
Proof.
  split.
  - reflexivity.
  - apply (absent_container_is_writable of_image
             (mkWorld (@nil PathObject) (delete 7%nat (heap (image_world true []))))).
    reflexivity.
Defined.

(** The two ways of having no container, on the constructor's result. *)
Lemma no_container_supplied {J} `{JavaHierarchy J} h a d (w : World J) :
  QuPathPathObjectHierarchy.__init__ None = Ok (h, a, d) ->
  QuPathPathObjectHierarchy._readonly h w = (Ok false, w).
Proof.
  unfold QuPathPathObjectHierarchy.__init__. simpl. intros E. inversion E; subst.
  apply readonly_of_absent. reflexivity.
Qed.

Lemma container_expired {J} `{JavaHierarchy J} h a d addr (s : J) hp :
  QuPathPathObjectHierarchy.__init__ (Some addr) = Ok (h, a, d) ->
  QuPathPathObjectHierarchy._readonly h (mkWorld s (delete addr hp))
  = (Ok false, mkWorld s (delete addr hp)).
Proof.
  unfold QuPathPathObjectHierarchy.__init__. simpl. intros E. inversion E; subst.
  apply readonly_of_absent. simpl. apply lookup_delete_eq.
Qed.

(** ** Slicing a view down to nothing *)

(** Slicing an index-list view composes the masks with plain list slicing;
    when nothing is selected the constructor refuses the empty list. *)
Lemma getitem_slice_selecting_nothing {J} `{JavaHierarchy J}
    (p : PathObjectProxy) (w : World J) (m : list pyvalue) (s : slice) :
  _mask p = Some (MaskSeq m) ->
  list_getslice m s = Ok [] ->
  exists msg, __getitem__ (ISlice s) (p, w) = (Raise (TypeError msg), (p, w)).
Proof.
  intros Hm Hs. unfold __getitem__, bind, self, gets, lift; simpl.
  rewrite Hm, Hs. simpl. eexists. reflexivity.
Qed.

(** C10: there is a derived view with an index-list mask (the view
    [annotations[[0]]] of three annotations) and a slice selecting none of
    its positions ([5:], past the end of the one-element mask) for which
    [__getitem__] raises a TypeError instead of returning a derived view:
    the composed mask is the empty list, which the constructor refuses. *)
Theorem empty_slice_of_index_list_view_raises :
  exists (view : PathObjectProxy) (s : slice) (msg : string),
    fst (__getitem__ (ISeq [PyInt 0]) (annotations_of standalone, three_annotations))
      = Ok (ItemProxy view)
    /\ _mask view = Some (MaskSeq [PyInt 0])
    /\ list_getslice [PyInt 0] s = Ok []
    /\ __init__ standalone QuPathPathAnnotationObject (Some (MaskSeq [])) = Raise (TypeError msg)
    /\ __getitem__ (ISlice s) (view, three_annotations)
       = (Raise (TypeError msg), (view, three_annotations)).
Proof.
  exists (mkProxy standalone QuPathPathAnnotationObject (Some (MaskSeq [PyInt 0])) None None).
  exists (Slice (Some 5) None None).
  eexists. repeat split.
Qed.

(** ** Membership *)

Lemma walk_topmost (o : _PathROIObject) : topmost_ancestor o (fst (walk o)).
Proof.
  induction o as [c j|c j up IH]; simpl.
  - apply topmost_here. reflexivity.
  - destruct (walk up) as [top n] eqn:E. simpl in *.
    eapply topmost_up; [reflexivity|exact IH].
Qed.

Lemma topmost_unique (o top : _PathROIObject) :
  topmost_ancestor o top -> top = fst (walk o).
Proof.
  induction 1 as [o Hp|o p top Hp _ IH].
  - destruct o; simpl in *; [reflexivity|discriminate].
  - destruct o as [|c j up]; simpl in *; [discriminate|].
    injection Hp as ->. destruct (walk p). exact IH.
Qed.

Lemma contains_traced_eq {J} `{JavaHierarchy J} (p : PathObjectProxy) (w : World J)
    (o : _PathROIObject) :
  isinstance (PyObj o) (_paquo_cls p) = true ->
  contains_traced (PyObj o) (p, w)
  = (Ok (bool_decide (java_object (fst (walk o)) = getRootObject (java w)), snd (walk o)), (p, w)).
Proof.
  intros Hi. unfold contains_traced, bind, self, gets; simpl in *.
  rewrite Hi. simpl. destruct (walk o) as [top n]. destruct w; reflexivity.
Qed.

(** C5: [__contains__] answers False without entering its loop when the
    argument is not an instance of the view's class; otherwise it answers
    whether the topmost ancestor of the argument is the root object of the
    hierarchy. The answer never reads the cached list and the call changes
    nothing. *)
Theorem contains_walks_to_root {J} `{JavaHierarchy J}
    (p : PathObjectProxy) (w : World J) (x : pyvalue) :
  (isinstance x (_paquo_cls p) = false ->
     contains_traced x (p, w) = (Ok (false, 0%nat), (p, w))
     /\ __contains__ x (p, w) = (Ok false, (p, w)))
  /\ (forall o, x = PyObj o -> isinstance x (_paquo_cls p) = true ->
        exists b, __contains__ x (p, w) = (Ok b, (p, w))
          /\ (b = true <->
              exists top, topmost_ancestor o top /\ java_object top = getRootObject (java w)))
  /\ (forall cache, fst (__contains__ x (set_memo__list cache p, w)) = fst (__contains__ x (p, w))).
Proof.
  split; [|split].
  - intros Hi. unfold __contains__, contains_traced, bind, self, gets, ret; simpl.
    rewrite Hi. simpl. auto.
  - intros o -> Hi.
    exists (bool_decide (java_object (fst (walk o)) = getRootObject (java w))). split.
    + unfold __contains__, bind. rewrite contains_traced_eq by assumption. reflexivity.
    + rewrite bool_decide_eq_true. split.
      * intros Heq. exists (fst (walk o)). split; [apply walk_topmost|exact Heq].
      * intros (top & Htop & Heq). apply topmost_unique in Htop. subst top. exact Heq.
  - intros cache. unfold __contains__, bind.
    destruct (isinstance x (_paquo_cls p)) eqn:Hi.
    + destruct x as [z|s|o]; try discriminate Hi.
      rewrite !contains_traced_eq by assumption. reflexivity.
    + unfold contains_traced, bind, self, gets, ret; simpl. rewrite Hi. reflexivity.
Qed.

(** A detection below the root is not in the annotations view (no loop
    iteration); an annotation two levels below the root is, whatever the
    cache holds. *)
Lemma contains_walks_to_root_witness :
  let p := annotations_of standalone in
  let d := PyObj (Child QuPathPathDetectionObject (det 4) (Topmost QuPathPathAnnotationObject the_root)) in
  let a := Child QuPathPathAnnotationObject (ann 9)
             (Child QuPathPathAnnotationObject (ann 1) (Topmost QuPathPathAnnotationObject the_root)) in
  contains_traced d (p, three_annotations) = (Ok (false, 0%nat), (p, three_annotations))
  /\ __contains__ (PyObj a) (p, three_annotations) = (Ok true, (p, three_annotations)).
Proof.
  intros p d a. split.
  - apply (contains_walks_to_root p three_annotations d). reflexivity.
  - destruct (contains_walks_to_root p three_annotations (PyObj a)) as (_ & Hin & _).
    destruct (Hin a eq_refl eq_refl) as (b & Hb & Hiff).
    rewrite Hb. replace b with true; [reflexivity|].
    symmetry. apply Hiff. exists (Topmost QuPathPathAnnotationObject the_root).
    split; [|reflexivity].
    eapply topmost_up; [reflexivity|].
    eapply topmost_up; [reflexivity|].
    apply topmost_here. reflexivity.
Defined.

(** ** The memoized readonly state of a view *)

Lemma set_memo__readonly_id (p : PathObjectProxy) (b : bool) :
  memo__readonly p = Some b -> set_memo__readonly (Some b) p = p.
Proof. destruct p; simpl; intros ->; reflexivity. Qed.

(** Reading [_readonly] yields the effective state and leaves it memoized. *)
Lemma _readonly_eval {J} `{JavaHierarchy J} (p : PathObjectProxy) (w : World J) :
  _readonly (p, w)
  = (Ok (effective_readonly p w), (set_memo__readonly (Some (effective_readonly p w)) p, w)).
Proof.
  unfold _readonly, cached_property, effective_readonly, gets; simpl.
  destruct (memo__readonly p) as [b|] eqn:E.
  - rewrite set_memo__readonly_id by assumption. reflexivity.
  - reflexivity.
Qed.

(** Runs a mutator of a base view through its mask and readonly guards. *)
Ltac run_guards Hm :=
  unfold bind at 1; unfold self, gets; simpl;
  rewrite Hm; simpl; unfold bind at 1; rewrite _readonly_eval;
  destruct (effective_readonly _ _); [reflexivity|].

(** [add] on a base view, guard by guard. *)
Lemma add_base_eq {J} `{JavaHierarchy J} (p : PathObjectProxy) (w : World J) (x : pyvalue) :
  _mask p = None ->
  add x (p, w) =
    let p' := set_memo__readonly (Some (effective_readonly p w)) p in
    if effective_readonly p w then (Raise ReadOnlyError, (p', w))
    else if negb (isinstance x (_paquo_cls p)) then (Raise (requires p x), (p', w))
    else try_finally (do j <- lift (java_object_of x); jcall (addPathObject j))
           _list_invalidate_cache (p', w).
Proof.
  intros Hm. unfold add. run_guards Hm.
  destruct (isinstance x (_paquo_cls p)); reflexivity.
Qed.

Lemma discard_base_eq {J} `{JavaHierarchy J} (p : PathObjectProxy) (w : World J) (x : pyvalue) :
  _mask p = None ->
  discard x (p, w) =
    let p' := set_memo__readonly (Some (effective_readonly p w)) p in
    if effective_readonly p w then (Raise ReadOnlyError, (p', w))
    else if negb (isinstance x (_paquo_cls p)) then (Raise (requires p x), (p', w))
    else try_finally (do j <- lift (java_object_of x); jcall (removeObject j true))
           _list_invalidate_cache (p', w).
Proof.
  intros Hm. unfold discard. run_guards Hm.
  destruct (isinstance x (_paquo_cls p)); reflexivity.
Qed.

Lemma clear_base_eq {J} `{JavaHierarchy J} (p : PathObjectProxy) (w : World J) :
  _mask p = None ->
  clear (p, w) =
    let p' := set_memo__readonly (Some (effective_readonly p w)) p in
    if effective_readonly p w then (Raise ReadOnlyError, (p', w))
    else try_finally (do l <- _list; jcall (removePathObjects l))
           _list_invalidate_cache (p', w).
Proof.
  intros Hm. unfold clear. run_guards Hm. reflexivity.
Qed.

(** A concrete run against the claim of C3: the annotations view of the
    hierarchy of image 7 adds an object while the image is writable; the
    image then turns readonly; the next [add] on the view, a base view
    whose container exists and is readonly at the time of the call, goes
    through and changes the store. *)
Lemma add_after_container_turned_readonly :
  let x1 := PyObj (Topmost QuPathPathAnnotationObject (ann 1)) in
  let x2 := PyObj (Topmost QuPathPathAnnotationObject (ann 2)) in
  let view := annotations_of of_image in
  let view' := set_memo__readonly (Some false) view in
  add x1 (view, image_world false []) = (Ok tt, (view', image_world false [ann 1]))
  /\ _mask view' = None
  /\ call_ref (heap (image_world true [ann 1])) (_image_ref (_hierarchy view'))
     = Some {| entry__readonly := Some true |}
  /\ Hierarchy_readonly (heap (image_world true [ann 1])) (_hierarchy view') = true
  /\ add x2 (view', image_world true [ann 1]) = (Ok tt, (view', image_world true [ann 1; ann 2]))
  /\ fst (add x2 (view', image_world true [ann 1])) <> Raise ReadOnlyError.
Proof.
  intros x1 x2 view view'. repeat split; discriminate.
Qed.

(** C3 (amended): on a base view, [add] raises the "project in readonly
    mode" IOError whenever the view's readonly state is true; that state is
    derived from the enclosing container at the view's first readonly check
    and memoized on the view. So a view that has not memoized it yet fails
    when the container exists with a true flag at the time of the call; a
    view that has memoized it no longer observes the container: the outcome
    of [add] and the store it leaves do not depend on the heap. *)
Theorem add_readonly_memoized {J} `{JavaHierarchy J}
    (p : PathObjectProxy) (w : World J) (x : pyvalue) :
  _mask p = None ->
  (effective_readonly p w = true ->
     add x (p, w) = (Raise ReadOnlyError, (set_memo__readonly (Some true) p, w)))
  /\ (forall a i, memo__readonly p = None ->
        _image_ref (_hierarchy p) = weakref_ref a -> heap w !! a = Some i ->
        entry__readonly i = Some true ->
        add x (p, w) = (Raise ReadOnlyError, (set_memo__readonly (Some true) p, w)))
  /\ (forall b hp, memo__readonly p = Some b ->
        fst (add x (p, mkWorld (java w) hp)) = fst (add x (p, w))
        /\ java (snd (snd (add x (p, mkWorld (java w) hp)))) = java (snd (snd (add x (p, w))))).
Proof.
  intros Hm.
  assert (effective_readonly p w = true ->
          add x (p, w) = (Raise ReadOnlyError, (set_memo__readonly (Some true) p, w))) as Hro.
  { intros He. rewrite add_base_eq by assumption. simpl. rewrite He. reflexivity. }
  split; [exact Hro|split].
  - intros a i Hmemo Href Hlive Hflag. apply Hro.
    unfold effective_readonly, Hierarchy_readonly, call_ref.
    rewrite Hmemo, Href, Hlive, Hflag. reflexivity.
  - intros b hp Hmemo. rewrite !add_base_eq by assumption.
    unfold effective_readonly. rewrite Hmemo. simpl.
    destruct b; [auto|].
    destruct (isinstance x (_paquo_cls p)); simpl; [|auto].
    unfold try_finally, bind, lift, jcall. simpl.
    destruct (java_object_of x) as [j|e]; simpl; [|auto].
    destruct (addPathObject j (java w)) as [r s']. simpl. auto.
Qed.

Lemma add_readonly_memoized_witness :
  let x := PyObj (Topmost QuPathPathAnnotationObject (ann 1)) in
  add x (annotations_of of_image, image_world true [])
  = (Raise ReadOnlyError,
     (set_memo__readonly (Some true) (annotations_of of_image), image_world true [])).
Proof.
  intros x.
  destruct (add_readonly_memoized (annotations_of of_image) (image_world true []) x eq_refl)
    as (_ & Hfresh & _).
  apply (Hfresh 7%nat {| entry__readonly := Some true |}); reflexivity.
Defined.

(** ** Cache invalidation *)


(** Materialization of the list of a base view with no cache. *)
Lemma _list_materializes {J} `{JavaHierarchy J} (p : PathObjectProxy) (w : World J) :
  _mask p = None -> memo__list p = None ->
  _list (p, w)
  = (Ok (getObjects (java w) (java_class (_paquo_cls p))),
     (set_memo__list (Some (getObjects (java w) (java_class (_paquo_cls p)))) p, w)).
Proof.
  intros Hm Hc. unfold _list, cached_property. simpl. rewrite Hc, Hm. reflexivity.
Qed.



(** ** Bulk ingestion *)

Import QuPathPathObjectHierarchy.

Lemma counter_total_empty : counter_total ∅ = 0%nat.
Proof. unfold counter_total. apply map_fold_empty. Qed.

Lemma counter_total_incr (k : string) (c : gmap string nat) :
  counter_total (counter_incr k c) = S (counter_total c).
Proof.
  unfold counter_total, counter_incr.
  assert (forall (m : gmap string nat) (j1 j2 : string) (z1 z2 y : nat),
             j1 ≠ j2 -> m !! j1 = Some z1 -> m !! j2 = Some z2 ->
             (z1 + (z2 + y) = z2 + (z1 + y))%nat) as Hcomm by (intros; lia).
  destruct (c !! k) as [n|] eqn:E; simpl.
  - rewrite <- (insert_delete_eq c k).
    rewrite map_fold_insert_L; [|apply Hcomm|apply lookup_delete_eq].
    rewrite (map_fold_delete_L _ _ k n c); [|apply Hcomm|exact E].
    reflexivity.
  - rewrite map_fold_insert_L; [|apply Hcomm|exact E]. reflexivity.
Qed.

Lemma counter_incr_lookup (k : string) (c : gmap string nat) :
  counter_incr k c !! k = Some (S (default 0%nat (c !! k))).
Proof. unfold counter_incr. apply lookup_insert_eq. Qed.

Section Ingestion.
Context {J : Type} `{JavaHierarchy J}.
Context {G Geom Version : Type} `{Collaborators G Geom Version}.


(** The loop on a batch of processed records: it ends, with the converted
    objects staged in order and the failures tallied. *)
Lemma loop_processed fx records : forall aos skipped,
  Forall (processed fx) records ->
  loop fx records aos skipped
  = Ok (aos ++ converted fx records, tally fx records skipped).
Proof.
  induction records as [|a rest IH]; intros aos skipped Hall.
  - simpl. rewrite app_nil_r. reflexivity.
  - inversion Hall as [|? ? Ha Hrest]; subst.
    unfold processed in Ha. unfold converted, tally, fails_conversion. simpl.
    destruct (try_body fx a) as [ao|e] eqn:E.
    + rewrite IH by assumption. rewrite <- app_assoc. reflexivity.
    + rewrite Ha. rewrite IH by assumption. reflexivity.
Qed.

Lemma tally_total fx records : forall skipped,
  counter_total (tally fx records skipped)
  = (counter_total skipped + n_failed fx records)%nat.
Proof.
  unfold tally, n_failed.
  induction records as [|a rest IH]; intros skipped; simpl.
  - lia.
  - rewrite IH. destruct (fails_conversion fx a) eqn:E.
    + rewrite filter_cons_True by assumption. rewrite counter_total_incr. simpl. lia.
    + rewrite filter_cons_False by (rewrite E; discriminate). lia.
Qed.

Lemma n_failed_pos fx records :
  Exists (fun a => fails_conversion fx a = true) records ->
  (0 < n_failed fx records)%nat.
Proof.
  unfold n_failed. induction 1 as [a rest Ha|a rest _ IH].
  - rewrite filter_cons_True by assumption. simpl. lia.
  - destruct (fails_conversion fx a) eqn:E.
    + rewrite filter_cons_True by assumption. simpl. lia.
    + rewrite filter_cons_False by (rewrite E; discriminate). exact IH.
Qed.

(** A loop that ends has processed every record. *)
Lemma loop_ok_processed fx records : forall aos skipped r,
  loop fx records aos skipped = Ok r -> Forall (processed fx) records.
Proof.
  induction records as [|a rest IH]; intros aos skipped r Hr.
  - constructor.
  - simpl in Hr. constructor.
    + unfold processed. destruct (try_body fx a) as [ao|e]; [exact I|].
      destruct (caught e); [reflexivity|discriminate].
    + destruct (try_body fx a) as [ao|e]; [eapply IH; exact Hr|].
      destruct (caught e); [eapply IH; exact Hr|discriminate].
Qed.

(** C1 (amended): a call to [load_geojson] with [raise_on_skip] on a
    writable hierarchy, on a batch of which at least one record fails
    conversion, raises and inserts nothing: the store and the world are as
    before the call. When every record of the batch is converted or fails
    conversion, the exception is the ValueError reporting the number of
    failed records. *)
Theorem load_raise_on_skip_inserts_nothing
    (self : Hierarchy) (records : list (annotation G)) (fix_invalid : bool) (w : World J) :
  Hierarchy_readonly (heap w) self = false ->
  Exists (fun a => fails_conversion fix_invalid a = true) records ->
  (exists e, load_geojson self (GeoList records) true fix_invalid w = (Raise e, w))
  /\ (Forall (processed fix_invalid) records ->
      load_geojson self (GeoList records) true fix_invalid w
      = (Raise (ValueError ("could not convert " +:+ pretty (n_failed fix_invalid records)
                            +:+ " annotations")), w)).
Proof.
  intros Hro Hex.
  assert (Forall (processed fix_invalid) records ->
          load_geojson self (GeoList records) true fix_invalid w
          = (Raise (ValueError ("could not convert " +:+ pretty (n_failed fix_invalid records)
                                +:+ " annotations")), w)) as Hall.
  { intros Hall.
    unfold load_geojson, bind, QuPathPathObjectHierarchy._readonly, gets, lift. simpl.
    rewrite Hro. rewrite loop_processed by assumption. simpl.
    assert (tally fix_invalid records ∅ <> ∅) as Hne.
    { intros Heq. pose proof (tally_total fix_invalid records ∅) as Ht.
      rewrite Heq, counter_total_empty in Ht.
      pose proof (n_failed_pos fix_invalid records Hex). lia. }
    rewrite bool_decide_eq_false_2 by assumption. simpl.
    rewrite tally_total, counter_total_empty. reflexivity. }
  split; [|exact Hall].
  destruct (loop fix_invalid records [] ∅) as [r|e] eqn:Hloop.
  - eexists. apply Hall. eapply loop_ok_processed. exact Hloop.
  - exists e.
    unfold load_geojson, bind, QuPathPathObjectHierarchy._readonly, gets, lift. simpl.
    rewrite Hro, Hloop. reflexivity.
Qed.


End Ingestion.

(** A concrete run against the claim of C1: of two records the first
    converts and the second fails; with [raise_on_skip] the call raises
    and the store is as before, the converted object is not in it. Without
    [raise_on_skip] the converted object is inserted. *)
Lemma load_raise_on_skip_keeps_store :
  let batch := [record 1 0 (Some "Tumor"); record 3 3 (Some "Stroma")] in
  try_body true (record 1 0 (Some "Tumor")) = Ok (ann 1)
  /\ fails_conversion true (record 3 3 (Some "Stroma")) = true
  /\ Hierarchy_readonly (heap empty_world) standalone = false
  /\ load_geojson standalone (GeoList batch) true true empty_world
     = (Raise (ValueError "could not convert 1 annotations"), empty_world)
  /\ java (snd (load_geojson standalone (GeoList batch) true true empty_world)) <> [ann 1]
  /\ load_geojson standalone (GeoList batch) false true empty_world
     = (Ok true, mkWorld [ann 1] ∅).
Proof.
  intros batch. repeat split; vm_compute; try reflexivity; discriminate.
Qed.

Lemma load_raise_on_skip_inserts_nothing_witness :
  load_geojson standalone (GeoList batch_of_five) true true three_annotations
  = (Raise (ValueError "could not convert 1 annotations"), three_annotations).
Proof.
  destruct (load_raise_on_skip_inserts_nothing standalone batch_of_five true three_annotations)
    as [_ Hcount].
  - reflexivity.
  - do 2 apply Exists_cons_tl. apply Exists_cons_hd. reflexivity.
  - rewrite Hcount.
    + vm_compute. reflexivity.
    + repeat constructor.
Defined.


(** The batch of five records with one unrepairable geometry, loaded
    without [raise_on_skip]: objects were added, four of them, and the
    tally holds the classification of the third record once. *)
Example load_batch_of_five :
  load_geojson standalone (GeoList batch_of_five) false true empty_world
  = (Ok true, mkWorld [ann 1; ann 2; ann 4; ann 5] ∅)
  /\ loop true batch_of_five [] ∅ = Ok ([ann 1; ann 2; ann 4; ann 5], {[ "Stroma" := 1%nat ]}).
Proof. split; vm_compute; reflexivity. Qed.

(** * Further properties *)

(** ** List comprehensions and integer indexing *)

Lemma comprehension_Ok_inv {A B} (f : A -> result B) (x : A) (xs : list A) (zs : list B) :
  comprehension f (x :: xs) = Ok zs ->
  exists y ys, f x = Ok y /\ comprehension f xs = Ok ys /\ zs = y :: ys.
Proof.
  simpl. destruct (f x) as [y|e]; simpl; [|discriminate].
  destruct (comprehension f xs) as [ys|e]; simpl; [|discriminate].
  intros E. injection E as <-. eauto.
Qed.

Lemma comprehension_Ok_length {A B} (f : A -> result B) (xs : list A) : forall ys,
  comprehension f xs = Ok ys -> length ys = length xs.
Proof.
  induction xs as [|x xs IH]; intros ys Hc.
  - simpl in Hc. injection Hc as <-. reflexivity.
  - apply comprehension_Ok_inv in Hc as (y & ys' & _ & Hrest & ->).
    simpl. f_equal. apply IH. exact Hrest.
Qed.

Lemma comprehension_Ok_lookup {A B} (f : A -> result B) (xs : list A) : forall ys i x,
  comprehension f xs = Ok ys -> xs !! i = Some x ->
  exists y, ys !! i = Some y /\ f x = Ok y.
Proof.
  induction xs as [|x0 xs IH]; intros ys i x Hc Hi.
  - destruct i; discriminate.
  - apply comprehension_Ok_inv in Hc as (y & ys' & Hy & Hrest & ->).
    destruct i as [|i]; simpl in *.
    + injection Hi as <-. eauto.
    + eapply IH; eassumption.
Qed.

Lemma list_getitem_in_range {A} (l : list A) (i : Z) :
  0 <= normalized (Z.of_nat (length l)) i < Z.of_nat (length l) ->
  exists x, l !! Z.to_nat (normalized (Z.of_nat (length l)) i) = Some x
            /\ list_getitem l i = Ok x.
Proof.
  intros Hr. unfold list_getitem. fold (normalized (Z.of_nat (length l)) i).
  destruct (lookup_lt_is_Some_2 l (Z.to_nat (normalized (Z.of_nat (length l)) i))) as [x Hx];
    [lia|].
  exists x. split; [exact Hx|].
  rewrite Hx.
  destruct (Z.leb_spec 0 (normalized (Z.of_nat (length l)) i)); [|lia].
  destruct (Z.ltb_spec (normalized (Z.of_nat (length l)) i) (Z.of_nat (length l))); [|lia].
  reflexivity.
Qed.

Lemma list_getitem_out_of_range {A} (l : list A) (i : Z) :
  ~ (0 <= normalized (Z.of_nat (length l)) i < Z.of_nat (length l)) ->
  list_getitem l i = Raise (IndexError "list index out of range").
Proof.
  intros Hr. unfold list_getitem. fold (normalized (Z.of_nat (length l)) i).
  destruct (Z.leb_spec 0 (normalized (Z.of_nat (length l)) i));
    destruct (Z.ltb_spec (normalized (Z.of_nat (length l)) i) (Z.of_nat (length l)));
    simpl; try reflexivity.
  lia.
Qed.

(** Indexing a list that was itself selected by an index list goes through
    the index list. *)
Lemma list_index_through {A} (l l1 : list A) (m : list pyvalue) (idx : pyvalue) :
  comprehension (list_index l) m = Ok l1 ->
  list_index l1 idx = rbind (list_index m idx) (list_index l).
Proof.
  intros Hc. pose proof (comprehension_Ok_length _ _ _ Hc) as Hlen.
  destruct idx as [z|?|?]; simpl; try reflexivity.
  destruct (decide (0 <= normalized (Z.of_nat (length m)) z < Z.of_nat (length m))) as [Hr|Hr].
  - destruct (list_getitem_in_range m z Hr) as (x & Hx & ->). simpl.
    destruct (comprehension_Ok_lookup _ _ _ _ _ Hc Hx) as (y & Hy & ->).
    rewrite <- Hlen in Hr, Hy.
    destruct (list_getitem_in_range l1 z Hr) as (y' & Hy' & ->). congruence.
  - rewrite (list_getitem_out_of_range m z Hr). rewrite <- Hlen in Hr.
    rewrite (list_getitem_out_of_range l1 z Hr). reflexivity.
Qed.

Lemma list_getitem_Ok_inv {A} (l : list A) (i : Z) (x : A) :
  list_getitem l i = Ok x ->
  0 <= normalized (Z.of_nat (length l)) i < Z.of_nat (length l)
  /\ l !! Z.to_nat (normalized (Z.of_nat (length l)) i) = Some x.
Proof.
  intros Hg.
  destruct (decide (0 <= normalized (Z.of_nat (length l)) i < Z.of_nat (length l))) as [Hr|Hr].
  - split; [exact Hr|].
    destruct (list_getitem_in_range l i Hr) as (x' & Hx' & Hg'). congruence.
  - rewrite (list_getitem_out_of_range l i Hr) in Hg. discriminate.
Qed.

Lemma list_index_Ok_inv {A} (l : list A) (idx : pyvalue) (x : A) :
  list_index l idx = Ok x ->
  exists z, idx = PyInt z /\ l !! Z.to_nat (normalized (Z.of_nat (length l)) z) = Some x.
Proof.
  destruct idx as [z|?|?]; simpl; try discriminate.
  intros Hg. exists z. split; [reflexivity|]. apply (list_getitem_Ok_inv l z x Hg).
Qed.

Lemma seq_of_seq {A} (l l1 : list A) (m : list pyvalue) :
  comprehension (list_index l) m = Ok l1 ->
  forall idxs,
    rbind (comprehension (list_index m) idxs) (comprehension (list_index l))
    = comprehension (list_index l1) idxs.
Proof.
  intros Hc. induction idxs as [|idx idxs IH]; [reflexivity|].
  simpl. rewrite (list_index_through l l1 m idx Hc).
  destruct (list_index m idx) as [x|e] eqn:Hx; simpl; [|reflexivity].
  apply list_index_Ok_inv in Hx as (z & _ & Hx).
  destruct (comprehension_Ok_lookup _ _ _ _ _ Hc Hx) as (y & _ & Hy).
  destruct (comprehension (list_index m) idxs) as [xs|e]; simpl in *; rewrite Hy; simpl.
  - rewrite IH. reflexivity.
  - rewrite <- IH. reflexivity.
Qed.

(** Selecting positions of a list that was itself selected by an index
    list goes through the index list. *)
Lemma sel_cons {A} (l : list A) (p : Z) (ps : list Z) :
  sel l (p :: ps) = match l !! Z.to_nat p with
                    | Some x => x :: sel l ps
                    | None => sel l ps
                    end.
Proof. reflexivity. Qed.

Lemma sel_through {A} (l l1 : list A) (m : list pyvalue) :
  comprehension (list_index l) m = Ok l1 ->
  forall ps, comprehension (list_index l) (sel m ps) = Ok (sel l1 ps).
Proof.
  intros Hc. pose proof (comprehension_Ok_length _ _ _ Hc) as Hlen.
  induction ps as [|p ps IH]; [reflexivity|].
  rewrite !sel_cons.
  destruct (m !! Z.to_nat p) as [x|] eqn:Hx.
  - destruct (comprehension_Ok_lookup _ _ _ _ _ Hc Hx) as (y & Hy & Hfx).
    rewrite Hy. cbn [comprehension]. rewrite Hfx, IH. reflexivity.
  - apply lookup_ge_None in Hx. rewrite <- Hlen in Hx.
    apply lookup_ge_None in Hx. rewrite Hx. exact IH.
Qed.

Lemma slice_of_seq {A} (l l1 : list A) (m : list pyvalue) (s : slice) :
  comprehension (list_index l) m = Ok l1 ->
  rbind (list_getslice m s) (comprehension (list_index l)) = list_getslice l1 s.
Proof.
  intros Hc. unfold list_getslice.
  rewrite (comprehension_Ok_length _ _ _ Hc).
  destruct (slice_indices s (Z.of_nat (length m))) as [[[a b] c]|e]; simpl; [|reflexivity].
  apply (sel_through l l1 m Hc).
Qed.

(** What is picked out of a list of integers is a list of integers. *)
Lemma forallb_elements {A} (f : A -> bool) (m m' : list A) :
  forallb f m = true -> Forall (fun x => x ∈ m) m' -> forallb f m' = true.
Proof.
  intros Hall. induction 1 as [|x m' Hx _ IH]; [reflexivity|].
  simpl. rewrite IH, andb_true_r.
  clear IH. induction Hx as [x m|x y m _ IHm]; simpl in Hall;
    apply andb_true_iff in Hall as [Hy Hm]; auto.
Qed.

Lemma comprehension_elements (m idxs : list pyvalue) : forall m',
  comprehension (list_index m) idxs = Ok m' -> Forall (fun x => x ∈ m) m'.
Proof.
  induction idxs as [|idx idxs IH]; intros m' Hc.
  - injection Hc as <-. constructor.
  - apply comprehension_Ok_inv in Hc as (x & xs & Hx & Hrest & ->).
    apply list_index_Ok_inv in Hx as (z & _ & Hx).
    constructor; [eapply list_elem_of_lookup_2; exact Hx|apply IH; exact Hrest].
Qed.

Lemma sel_elements {A} (m : list A) (ps : list Z) : Forall (fun x => x ∈ m) (sel m ps).
Proof.
  induction ps as [|p ps IH]; [constructor|].
  rewrite sel_cons. destruct (m !! Z.to_nat p) as [x|] eqn:Hx; [|exact IH].
  constructor; [eapply list_elem_of_lookup_2; exact Hx|exact IH].
Qed.

Lemma mask_ok_picked (m m' : list pyvalue) :
  mask_ok (Some (MaskSeq m)) = true -> Forall (fun x => x ∈ m) m' -> m' <> [] ->
  mask_ok (Some (MaskSeq m')) = true.
Proof.
  unfold mask_ok. intros Hok Hel Hne. apply andb_true_iff in Hok as [Hint _].
  rewrite (forallb_elements _ m m' Hint Hel). simpl.
  destruct m'; [congruence|reflexivity].
Qed.

(** The list of a proxy fresh from the constructor. *)
Lemma fresh_list {J} `{JavaHierarchy J} (h : Hierarchy) (c : PaquoClass) (m : mask)
    (w : World J) :
  mask_ok (Some m) = true ->
  fst (_list (mkProxy h c (Some m) None None, w)) = restrict (getObjects (java w) (java_class c)) m.
Proof.
  intros Hok.
  assert (truthy (Some m) = true) as Ht.
  { rewrite truthy_of_mask_ok by assumption. apply bool_decide_eq_true_2. discriminate. }
  unfold _list, cached_property. simpl memo__list. cbv iota beta.
  simpl _mask. rewrite Ht. simpl _paquo_cls.
  destruct m as [s|l]; simpl restrict.
  - destruct (list_getslice _ s); reflexivity.
  - destruct (comprehension _ l); reflexivity.
Qed.

(** [list(view[i])] once the composed mask is known. *)
Lemma derive_and_list_eq {J} `{JavaHierarchy J} (i : index) (p : PathObjectProxy) (w : World J)
    (composed : result mask) :
  __getitem__ i (p, w)
  = (rbind composed (fun m => rbind (PathObjectProxy.__init__ (_hierarchy p) (_paquo_cls p) (Some m))
                                (fun q => Ok (ItemProxy q))), (p, w)) ->
  (forall m, composed = Ok m -> mask_ok (Some m) = true) ->
  derive_and_list i (p, w)
  = rbind composed (restrict (getObjects (java w) (java_class (_paquo_cls p)))).
Proof.
  intros Hg Hok. unfold derive_and_list. rewrite Hg.
  destruct composed as [m|e]; simpl; [|reflexivity].
  unfold PathObjectProxy.__init__. rewrite (Hok m eq_refl). simpl. apply fresh_list. apply Hok. reflexivity.
Qed.

Lemma getitem_seq_of_seq_eq {J} `{JavaHierarchy J} (p : PathObjectProxy) (w : World J)
    (m idxs : list pyvalue) :
  _mask p = Some (MaskSeq m) ->
  __getitem__ (ISeq idxs) (p, w)
  = (rbind (rbind (comprehension (list_index m) idxs) (fun l => Ok (MaskSeq l)))
       (fun m => rbind (PathObjectProxy.__init__ (_hierarchy p) (_paquo_cls p) (Some m))
                   (fun q => Ok (ItemProxy q))), (p, w)).
Proof.
  intros Hm. unfold __getitem__, bind, self, gets, lift, ret; simpl. rewrite Hm.
  destruct (comprehension (list_index m) idxs) as [l|e]; simpl; [|reflexivity].
  destruct (PathObjectProxy.__init__ _ _ _); reflexivity.
Qed.

Lemma getitem_slice_of_seq_eq {J} `{JavaHierarchy J} (p : PathObjectProxy) (w : World J)
    (m : list pyvalue) (s : slice) :
  _mask p = Some (MaskSeq m) ->
  __getitem__ (ISlice s) (p, w)
  = (rbind (rbind (list_getslice m s) (fun l => Ok (MaskSeq l)))
       (fun m => rbind (PathObjectProxy.__init__ (_hierarchy p) (_paquo_cls p) (Some m))
                   (fun q => Ok (ItemProxy q))), (p, w)).
Proof.
  intros Hm. unfold __getitem__, bind, self, gets, lift, ret; simpl. rewrite Hm.
  destruct (list_getslice m s) as [l|e]; simpl; [|reflexivity].
  destruct (PathObjectProxy.__init__ _ _ _); reflexivity.
Qed.

(** ** Composition of masks, where it is exact *)

(** X1: on a base view, [view[m]] for a slice or a non-empty list of
    integers [m] is the object list of the view's class restricted by
    [m]: the list of the derived view is [objects[m]], with the errors of
    that expression. *)
Theorem base_view_derives_directly {J} `{JavaHierarchy J}
    (p : PathObjectProxy) (w : World J) (m : mask) :
  _mask p = None ->
  mask_ok (Some m) = true ->
  derive_and_list (index_of_mask m) (p, w)
  = restrict (getObjects (java w) (java_class (_paquo_cls p))) m.
Proof.
  intros Hbase Hok.
  rewrite (derive_and_list_eq (index_of_mask m) p w (Ok m)).
  - reflexivity.
  - destruct m as [s|l];
      unfold __getitem__, PathObjectProxy.__init__, bind, lift, ret, self, gets; simpl;
      rewrite Hbase; simpl in *; rewrite ?Hok; reflexivity.
  - intros m' E. injection E as <-. exact Hok.
Qed.

Lemma base_view_derives_directly_witness :
  derive_and_list (ISlice (Slice (Some (-2)) None None)) (annotations_of standalone, mixed_store)
  = Ok [ann 2; ann 3].
Proof.
  rewrite (base_view_derives_directly (annotations_of standalone) mixed_store
             (MaskSlice (Slice (Some (-2)) None None))); reflexivity.
Defined.

(** X2: on a view with an index-list mask whose own list can be read,
    [view[idxs]] for a non-empty index list is the view's list indexed by
    [idxs]: the derived view lists [[view_list[i] for i in idxs]], and
    raises what that expression raises. *)
Theorem index_list_of_index_list_view {J} `{JavaHierarchy J}
    (p : PathObjectProxy) (w : World J) (m idxs : list pyvalue) (l1 : list PathObject) :
  _mask p = Some (MaskSeq m) ->
  well_formed p ->
  list_of (getObjects (java w) (java_class (_paquo_cls p))) (_mask p) = Ok l1 ->
  idxs <> [] ->
  derive_and_list (ISeq idxs) (p, w) = comprehension (list_index l1) idxs.
Proof.
  intros Hm Hwf Hl1 Hne. unfold well_formed in Hwf. rewrite Hm in Hwf, Hl1. simpl in Hl1.
  rewrite (derive_and_list_eq _ p w
             (rbind (comprehension (list_index m) idxs) (fun l => Ok (MaskSeq l)))).
  - rewrite <- (seq_of_seq _ l1 m Hl1 idxs).
    destruct (comprehension (list_index m) idxs); reflexivity.
  - apply getitem_seq_of_seq_eq. exact Hm.
  - intros m' Hc.
    destruct (comprehension (list_index m) idxs) as [l|e] eqn:E; [|discriminate].
    injection Hc as <-.
    apply (mask_ok_picked m l Hwf (comprehension_elements m idxs l E)).
    apply comprehension_Ok_length in E. destruct l, idxs; simpl in *; congruence.
Qed.

Lemma index_list_of_index_list_view_witness :
  derive_and_list (ISeq [PyInt (-1); PyInt 0])
    (mkProxy standalone QuPathPathAnnotationObject (Some (MaskSeq [PyInt 2; PyInt 0])) None None,
     three_annotations)
  = Ok [ann 1; ann 3].
Proof.
  rewrite (index_list_of_index_list_view _ three_annotations [PyInt 2; PyInt 0]
             [PyInt (-1); PyInt 0] [ann 3; ann 1]); try reflexivity.
  discriminate.
Defined.

(** X3: on a view with an index-list mask whose own list can be read,
    [view[s]] for a slice [s] that selects something is the view's list
    sliced by [s]. *)
Theorem slice_of_index_list_view {J} `{JavaHierarchy J}
    (p : PathObjectProxy) (w : World J) (m : list pyvalue) (s : slice) (l1 : list PathObject) :
  _mask p = Some (MaskSeq m) ->
  well_formed p ->
  list_of (getObjects (java w) (java_class (_paquo_cls p))) (_mask p) = Ok l1 ->
  list_getslice m s <> Ok [] ->
  derive_and_list (ISlice s) (p, w) = list_getslice l1 s.
Proof.
  intros Hm Hwf Hl1 Hne. unfold well_formed in Hwf. rewrite Hm in Hwf, Hl1. simpl in Hl1.
  rewrite (derive_and_list_eq _ p w
             (rbind (list_getslice m s) (fun l => Ok (MaskSeq l)))).
  - rewrite <- (slice_of_seq _ l1 m s Hl1).
    destruct (list_getslice m s); reflexivity.
  - apply getitem_slice_of_seq_eq. exact Hm.
  - intros m' Hc.
    destruct (list_getslice m s) as [l|e] eqn:E; [|discriminate].
    injection Hc as <-.
    apply (mask_ok_picked m l Hwf); [|congruence].
    unfold list_getslice in E.
    destruct (slice_indices s (Z.of_nat (length m))) as [[[a b] c]|e]; [|discriminate].
    injection E as <-. apply sel_elements.
Qed.

Lemma slice_of_index_list_view_witness :
  derive_and_list (ISlice (Slice None None (Some (-1))))
    (mkProxy standalone QuPathPathAnnotationObject (Some (MaskSeq [PyInt 2; PyInt 0])) None None,
     three_annotations)
  = Ok [ann 1; ann 3].
Proof.
  rewrite (slice_of_index_list_view _ three_annotations [PyInt 2; PyInt 0]
             (Slice None None (Some (-1))) [ann 3; ann 1]); try reflexivity.
  discriminate.
Defined.

(** ** Arithmetic of slices and ranges *)

Lemma slice_indices_bounds (s : slice) (n a b c : Z) :
  0 <= n -> slice_indices s n = Ok (a, b, c) ->
  c <> 0
  /\ (0 < c -> 0 <= a <= n /\ 0 <= b <= n)
  /\ (c < 0 -> -1 <= a <= n - 1 /\ -1 <= b <= n - 1).
Proof.
  intros Hn. unfold slice_indices.
  destruct (Z.eqb_spec (default 1 (step s)) 0) as [|Hc]; [discriminate|].
  intros E. injection E as <- <- <-.
  split; [exact Hc|].
  destruct (Z.ltb_spec (default 1 (step s)) 0);
    (split; [intros ?|intros ?]; try lia);
    destruct (start s) as [v|]; destruct (stop s) as [v'|];
    repeat match goal with
           | |- context [?x <? 0] => destruct (Z.ltb_spec x 0)
           end; lia.
Qed.

Lemma slice_indices_forward (s : slice) (n : Z) :
  forward s = true ->
  exists a b c, slice_indices s n = Ok (a, b, c) /\ 0 < c.
Proof.
  unfold forward, slice_indices. intros Hf.
  destruct (step s) as [k|]; simpl.
  - apply Z.ltb_lt in Hf. destruct (Z.eqb_spec k 0); [lia|]. eauto.
  - eexists _, _, _. split; [reflexivity|lia].
Qed.

Lemma progression_len_nonneg (a b c : Z) : c <> 0 -> 0 <= progression_len a b c.
Proof.
  intros Hc. unfold progression_len.
  destruct (Z.ltb_spec 0 c).
  - destruct (Z.ltb_spec a b); [|lia].
    pose proof (Z.div_pos (b - a - 1) c). lia.
  - destruct (Z.ltb_spec b a); [|lia].
    pose proof (Z.div_pos (a - b - 1) (- c)). lia.
Qed.

(** The elements of a progression lie between its ends. *)
Lemma progression_element (a b c j : Z) :
  c <> 0 -> 0 <= j < progression_len a b c ->
  (0 < c -> a <= a + j * c < b) /\ (c < 0 -> b < a + j * c <= a).
Proof.
  intros Hc Hj. unfold progression_len in Hj.
  destruct (Z.ltb_spec 0 c).
  - destruct (Z.ltb_spec a b); [|lia].
    pose proof (Z.mul_div_le (b - a - 1) c). split; [|lia]. intros _. nia.
  - destruct (Z.ltb_spec b a); [|lia].
    pose proof (Z.mul_div_le (a - b - 1) (- c)). split; [lia|]. intros _. nia.
Qed.

Lemma progression_length (a b c : Z) :
  length (progression a b c) = Z.to_nat (progression_len a b c).
Proof. unfold progression. rewrite length_fmap. apply length_seqZ. Qed.

Lemma progression_lookup (a b c : Z) (j : nat) :
  Z.of_nat j < progression_len a b c ->
  progression a b c !! j = Some (a + Z.of_nat j * c).
Proof.
  intros Hj. unfold progression. rewrite list_lookup_fmap.
  rewrite lookup_seqZ_lt by assumption. reflexivity.
Qed.

Lemma progression_Forall (P : Z -> Prop) (a b c : Z) :
  (forall j, 0 <= j < progression_len a b c -> P (a + j * c)) ->
  Forall P (progression a b c).
Proof.
  intros HP. unfold progression. apply Forall_fmap. apply Forall_seqZ.
  intros j Hj. simpl. apply HP. lia.
Qed.

(** The positions a slice denotes are inside the sequence. *)
Lemma slice_positions_valid (s : slice) (n a b c : Z) :
  0 <= n -> slice_indices s n = Ok (a, b, c) ->
  Forall (fun p => 0 <= p < n) (progression a b c).
Proof.
  intros Hn Hs. destruct (slice_indices_bounds s n a b c Hn Hs) as (Hc & Hpos & Hneg).
  apply progression_Forall. intros j Hj.
  destruct (progression_element a b c j Hc Hj) as [Hp Hm].
  destruct (Z.lt_total c 0) as [Hlt|[Heq|Hgt]]; [|lia|]; lia.
Qed.

(** Selecting valid positions. *)
Lemma sel_valid {A} (l : list A) (ps : list Z) :
  Forall (fun p => 0 <= p < Z.of_nat (length l)) ps ->
  length (sel l ps) = length ps
  /\ forall j, sel l ps !! j = ps !! j ≫= (fun p => l !! Z.to_nat p).
Proof.
  induction 1 as [|p ps Hp _ [IHlen IHlook]].
  - split; [reflexivity|]. intros j. destruct j; reflexivity.
  - rewrite sel_cons.
    destruct (lookup_lt_is_Some_2 l (Z.to_nat p)) as [x Hx]; [lia|].
    rewrite Hx. split; [simpl; f_equal; exact IHlen|].
    intros [|j]; simpl; [symmetry; exact Hx|apply IHlook].
Qed.

Lemma range_len_range1 (n : Z) : 0 <= n -> range_len (range1 n) = n.
Proof.
  intros Hn. unfold range_len, range1, progression_len. simpl.
  destruct (Z.ltb_spec 0 n); [|lia]. rewrite Z.div_1_r. lia.
Qed.

Lemma range1_getslice (n : Z) (m : slice) :
  0 <= n ->
  range_getslice (range1 n) m
  = rbind (slice_indices m n) (fun '(a, b, c) => Ok (Range a b c)).
Proof.
  intros Hn. unfold range_getslice. rewrite range_len_range1 by assumption.
  destruct (slice_indices m n) as [[[a b] c]|e]; simpl; [|reflexivity].
  f_equal. f_equal; lia.
Qed.

Lemma range_getitem_in_range (r : range) (i : Z) :
  0 <= normalized (range_len r) i < range_len r ->
  range_getitem r i = Ok (r_start r + normalized (range_len r) i * r_step r).
Proof.
  intros Hr. unfold range_getitem. fold (normalized (range_len r) i).
  destruct (Z.leb_spec 0 (normalized (range_len r) i)); [|lia].
  destruct (Z.ltb_spec (normalized (range_len r) i) (range_len r)); [|lia].
  reflexivity.
Qed.

Lemma range_getitem_out_of_range (r : range) (i : Z) :
  ~ (0 <= normalized (range_len r) i < range_len r) ->
  range_getitem r i = Raise (IndexError "range object index out of range").
Proof.
  intros Hr. unfold range_getitem. fold (normalized (range_len r) i).
  destruct (Z.leb_spec 0 (normalized (range_len r) i));
    destruct (Z.ltb_spec (normalized (range_len r) i) (range_len r));
    simpl; try reflexivity.
  lia.
Qed.

(** The slice of a list, position by position. *)
Lemma sliced_lookup {A} (l : list A) (s : slice) (a b c : Z) (k : Z) :
  slice_indices s (Z.of_nat (length l)) = Ok (a, b, c) ->
  Z.of_nat (length (sel l (progression a b c))) = progression_len a b c
  /\ (0 <= k < progression_len a b c ->
      0 <= a + k * c < Z.of_nat (length l)
      /\ sel l (progression a b c) !! Z.to_nat k = l !! Z.to_nat (a + k * c)).
Proof.
  intros Hs.
  pose proof (slice_positions_valid s _ a b c (Nat2Z.is_nonneg _) Hs) as Hvalid.
  destruct (slice_indices_bounds s _ a b c (Nat2Z.is_nonneg _) Hs) as (Hc & _).
  destruct (sel_valid l _ Hvalid) as [Hlen Hlook].
  pose proof (progression_len_nonneg a b c Hc) as Hnn.
  split.
  - rewrite Hlen, progression_length. lia.
  - intros Hk. rewrite Hlook, progression_lookup by lia.
    rewrite Z2Nat.id by lia. simpl. split; [|reflexivity].
    rewrite Forall_forall in Hvalid. apply Hvalid.
    apply list_elem_of_lookup. exists (Z.to_nat k).
    rewrite progression_lookup by lia. rewrite Z2Nat.id by lia. reflexivity.
Qed.

(** Indexing the slice of a list, through the range of the slice. *)
Lemma range_index_through {A} (l : list A) (s : slice) (a b c : Z) (idx : pyvalue) :
  slice_indices s (Z.of_nat (length l)) = Ok (a, b, c) ->
  match range_index (Range a b c) idx with
  | Ok v => exists y, list_index l (PyInt v) = Ok y
                      /\ list_index (sel l (progression a b c)) idx = Ok y
  | Raise _ => exists e, list_index (sel l (progression a b c)) idx = Raise e
  end.
Proof.
  intros Hs. destruct idx as [z|?|?]; simpl; try (eexists; reflexivity).
  destruct (sliced_lookup l s a b c (normalized (progression_len a b c) z) Hs) as [Hlen Hk].
  destruct (decide (0 <= normalized (progression_len a b c) z < progression_len a b c))
    as [Hr|Hr].
  - rewrite (range_getitem_in_range (Range a b c) z Hr). simpl.
    destruct (Hk Hr) as [Hpos Hlook].
    assert (normalized (Z.of_nat (length l)) (a + normalized (progression_len a b c) z * c)
            = a + normalized (progression_len a b c) z * c) as Hnorm.
    { unfold normalized at 1. destruct (Z.ltb_spec (a + normalized (progression_len a b c) z * c) 0); lia. }
    destruct (list_getitem_in_range l (a + normalized (progression_len a b c) z * c))
      as (y & Hy & Hget); [rewrite Hnorm; exact Hpos|].
    exists y. split; [exact Hget|].
    destruct (list_getitem_in_range (sel l (progression a b c)) z) as (y' & Hy' & Hget');
      [rewrite Hlen; exact Hr|].
    rewrite Hget'. rewrite Hlen, Hlook in Hy'. rewrite Hnorm in Hy. congruence.
  - rewrite (range_getitem_out_of_range (Range a b c) z Hr).
    eexists. apply list_getitem_out_of_range. rewrite Hlen. exact Hr.
Qed.

Lemma seq_of_slice {A} (l : list A) (s : slice) (a b c : Z) :
  slice_indices s (Z.of_nat (length l)) = Ok (a, b, c) ->
  forall idxs,
    same_outcome
      (rbind (comprehension (range_index (Range a b c)) idxs)
             (fun vs => comprehension (list_index l) (PyInt <$> vs)))
      (comprehension (list_index (sel l (progression a b c))) idxs).
Proof.
  intros Hs. induction idxs as [|idx idxs IH]; [reflexivity|].
  pose proof (range_index_through l s a b c idx Hs) as Hidx.
  cbn [comprehension].
  destruct (range_index (Range a b c) idx) as [v|e]; cbn [rbind].
  - destruct Hidx as (y & Hy & Hy'). rewrite Hy'. cbn [rbind].
    destruct (comprehension (range_index (Range a b c)) idxs) as [vs|e]; cbn [rbind] in *.
    + rewrite fmap_cons. cbn [comprehension]. rewrite Hy. cbn [rbind].
      destruct (comprehension (list_index l) (PyInt <$> vs)),
               (comprehension (list_index (sel l (progression a b c))) idxs);
        cbn [rbind same_outcome] in *; first [contradiction|exact I|congruence].
    + destruct (comprehension (list_index (sel l (progression a b c))) idxs);
        cbn [rbind same_outcome] in *; [contradiction|exact I].
  - destruct Hidx as (e' & ->). exact I.
Qed.

Lemma getitem_seq_of_slice_eq {J} `{JavaHierarchy J} (p : PathObjectProxy) (w : World J)
    (m : slice) (idxs : list pyvalue) :
  _mask p = Some (MaskSlice m) ->
  __getitem__ (ISeq idxs) (p, w)
  = (rbind (rbind (rbind (range_getslice (range1 (nObjects (java w))) m)
                     (fun _s => comprehension (range_index _s) idxs))
              (fun l => Ok (MaskSeq (PyInt <$> l))))
       (fun m => rbind (PathObjectProxy.__init__ (_hierarchy p) (_paquo_cls p) (Some m))
                   (fun q => Ok (ItemProxy q))), (p, w)).
Proof.
  intros Hm. destruct w as [s hp].
  unfold __getitem__, bind, self, gets, lift, ret, jcall; simpl. rewrite Hm. simpl java.
  destruct (range_getslice (range1 (nObjects s)) m) as [_s|e]; simpl; [|reflexivity].
  destruct (comprehension (range_index _s) idxs) as [l|e]; simpl; [|reflexivity].
  destruct (PathObjectProxy.__init__ _ _ _); reflexivity.
Qed.

(** X4: on a view with a slice mask, when the hierarchy holds as many
    objects as the view's class has (nothing of another class), [view[idxs]]
    for a non-empty index list is the view's list indexed by [idxs]: the
    derived view lists [[view_list[i] for i in idxs]], or both raise. *)
Theorem index_list_of_slice_view {J} `{JavaHierarchy J}
    (p : PathObjectProxy) (w : World J) (m : slice) (idxs : list pyvalue)
    (l1 : list PathObject) :
  _mask p = Some (MaskSlice m) ->
  nObjects (java w) = Z.of_nat (length (getObjects (java w) (java_class (_paquo_cls p)))) ->
  list_of (getObjects (java w) (java_class (_paquo_cls p))) (_mask p) = Ok l1 ->
  idxs <> [] ->
  same_outcome (derive_and_list (ISeq idxs) (p, w)) (comprehension (list_index l1) idxs).
Proof.
  intros Hm Hn Hl1 Hne. rewrite Hm in Hl1. simpl in Hl1.
  set (L := getObjects (java w) (java_class (_paquo_cls p))) in *.
  unfold list_getslice in Hl1.
  destruct (slice_indices m (Z.of_nat (length L))) as [[[a b] c]|e] eqn:Hs; [|discriminate].
  simpl in Hl1. injection Hl1 as <-. fold (sel L (progression a b c)).
  rewrite (derive_and_list_eq _ p w
             (rbind (rbind (range_getslice (range1 (nObjects (java w))) m)
                       (fun _s => comprehension (range_index _s) idxs))
                (fun l => Ok (MaskSeq (PyInt <$> l))))).
  - rewrite Hn, range1_getslice, Hs by lia. simpl. fold L.
    pose proof (seq_of_slice L m a b c Hs idxs) as Hsame.
    destruct (comprehension (range_index (Range a b c)) idxs); exact Hsame.
  - apply getitem_seq_of_slice_eq. exact Hm.
  - intros m' Hc.
    destruct (range_getslice (range1 (nObjects (java w))) m) as [_s|e]; [|discriminate].
    simpl in Hc.
    destruct (comprehension (range_index _s) idxs) as [l|e] eqn:E; [|discriminate].
    injection Hc as <-. unfold mask_ok.
    rewrite forallb_isinstance_int_fmap, length_fmap. simpl.
    apply comprehension_Ok_length in E.
    destruct l; [destruct idxs; simpl in *; congruence|reflexivity].
Qed.

Lemma index_list_of_slice_view_witness :
  same_outcome
    (derive_and_list (ISeq [PyInt 0; PyInt (-1)])
       (mkProxy standalone QuPathPathAnnotationObject
          (Some (MaskSlice (Slice None None (Some (-1))))) None None, three_annotations))
    (Ok [ann 3; ann 1]).
Proof.
  apply (index_list_of_slice_view _ three_annotations (Slice None None (Some (-1)))
           [PyInt 0; PyInt (-1)] [ann 3; ann 2; ann 1]); try reflexivity.
  discriminate.
Defined.

Lemma slice_indices_explicit_forward (a b c n : Z) :
  0 < c -> 0 <= a -> 0 <= b ->
  slice_indices (Slice (Some a) (Some b) (Some c)) n = Ok (Z.min a n, Z.min b n, c).
Proof.
  intros Hc Ha Hb. unfold slice_indices. simpl.
  destruct (Z.eqb_spec c 0); [lia|].
  destruct (Z.ltb_spec c 0); [lia|].
  destruct (Z.ltb_spec a 0); [lia|].
  destruct (Z.ltb_spec b 0); [lia|].
  reflexivity.
Qed.

(** Selecting from a slice of a list is selecting from the list. *)
Lemma sel_of_sliced {A} (l : list A) (s : slice) (a b c : Z) (qs : list Z) :
  slice_indices s (Z.of_nat (length l)) = Ok (a, b, c) ->
  Forall (fun q => 0 <= q < progression_len a b c) qs ->
  sel (sel l (progression a b c)) qs = sel l ((fun q => a + q * c) <$> qs).
Proof.
  intros Hs. induction 1 as [|q qs Hq _ IH]; [reflexivity|].
  rewrite fmap_cons, !sel_cons.
  destruct (sliced_lookup l s a b c q Hs) as [_ Hk].
  destruct (Hk Hq) as [_ ->]. rewrite IH. reflexivity.
Qed.

(** A forward slice of a forward slice, as one forward slice clipped to
    the length of the list. *)
Lemma forward_of_forward (n a1 b1 c1 a2 b2 c2 : Z) :
  0 < c1 -> 0 <= a1 <= n -> 0 <= b1 <= n ->
  0 < c2 -> 0 <= a2 <= progression_len a1 b1 c1 -> 0 <= b2 <= progression_len a1 b1 c1 ->
  progression (Z.min (a1 + a2 * c1) n) (Z.min (a1 + b2 * c1) n) (c2 * c1)
  = (fun q => a1 + q * c1) <$> progression a2 b2 c2.
Proof.
  intros Hc1 Ha1 Hb1 Hc2 Ha2 Hb2. unfold progression.
  rewrite <- list_fmap_compose.
  destruct (Z.lt_ge_cases a2 b2) as [Hlt|Hge].
  - (* the inner slice selects something: its first and last positions are
       positions of the outer slice *)
    set (Q := (b2 - a2 - 1) / c2).
    assert (0 <= Q) as HQ0 by (apply Z.div_pos; lia).
    assert (Q * c2 <= b2 - a2 - 1) as HQlo
      by (pose proof (Z.mul_div_le (b2 - a2 - 1) c2); unfold Q; lia).
    assert (b2 - a2 - 1 < (Q + 1) * c2) as HQhi
      by (pose proof (Z.mul_succ_div_gt (b2 - a2 - 1) c2); unfold Q; lia).
    assert (a1 + (a2 + Q * c2) * c1 < b1) as Hlast.
    { destruct (progression_element a1 b1 c1 (a2 + Q * c2)) as [Hin _]; [lia|nia|].
      specialize (Hin Hc1). lia. }
    assert (a1 + a2 * c1 < n) as Hfirst by nia.
    assert (progression_len a2 b2 c2 = Q + 1) as Hlen2.
    { unfold progression_len. destruct (Z.ltb_spec 0 c2); [|lia].
      destruct (Z.ltb_spec a2 b2); [|lia]. reflexivity. }
    assert (progression_len (Z.min (a1 + a2 * c1) n) (Z.min (a1 + b2 * c1) n) (c2 * c1) = Q + 1)
      as Hlen.
    { unfold progression_len.
      destruct (Z.ltb_spec 0 (c2 * c1)); [|nia].
      rewrite Z.min_l by lia.
      destruct (Z.ltb_spec (a1 + a2 * c1) (Z.min (a1 + b2 * c1) n)); [|nia].
      f_equal. symmetry.
      apply (Z.div_unique _ _ Q (Z.min (a1 + b2 * c1) n - (a1 + a2 * c1) - 1 - c2 * c1 * Q));
        [left|lia].
      assert (0 <= (b2 - a2) * c1 - 1 - c2 * c1 * Q) as H1 by nia.
      assert ((b2 - a2) * c1 - 1 - c2 * c1 * Q < c2 * c1) as H2 by nia.
      assert (0 <= n - (a1 + a2 * c1) - 1 - c2 * c1 * Q) as H3 by nia.
      destruct (Z.min_spec (a1 + b2 * c1) n) as [[? ->]|[? ->]]; lia. }
    rewrite Hlen, Hlen2. rewrite Z.min_l by lia.
    apply list_fmap_ext. intros i k _. simpl. ring.
  - assert (progression_len a2 b2 c2 = 0) as ->.
    { unfold progression_len. destruct (Z.ltb_spec 0 c2); [|lia].
      destruct (Z.ltb_spec a2 b2); [lia|reflexivity]. }
    assert (progression_len (Z.min (a1 + a2 * c1) n) (Z.min (a1 + b2 * c1) n) (c2 * c1) = 0) as ->.
    { unfold progression_len. destruct (Z.ltb_spec 0 (c2 * c1)); [|nia].
      destruct (Z.ltb_spec (Z.min (a1 + a2 * c1) n) (Z.min (a1 + b2 * c1) n)); [nia|reflexivity]. }
    reflexivity.
Qed.

Lemma getitem_slice_of_slice_eq {J} `{JavaHierarchy J} (p : PathObjectProxy) (w : World J)
    (m s : slice) :
  _mask p = Some (MaskSlice m) ->
  __getitem__ (ISlice s) (p, w)
  = (rbind (rbind (rbind (range_getslice (range1 (nObjects (java w))) m)
                     (fun r => range_getslice r s))
              (fun _s => Ok (MaskSlice (slice_of_range _s))))
       (fun m => rbind (PathObjectProxy.__init__ (_hierarchy p) (_paquo_cls p) (Some m))
                   (fun q => Ok (ItemProxy q))), (p, w)).
Proof.
  intros Hm. destruct w as [st hp].
  unfold __getitem__, bind, self, gets, lift, ret, jcall; simpl. rewrite Hm. simpl java.
  destruct (range_getslice (range1 (nObjects st)) m) as [r|e]; simpl; [|reflexivity].
  destruct (range_getslice r s) as [_s|e]; simpl; reflexivity.
Qed.

Lemma list_getslice_sel {A} (l : list A) (s : slice) (a b c : Z) :
  slice_indices s (Z.of_nat (length l)) = Ok (a, b, c) ->
  list_getslice l s = Ok (sel l (progression a b c)).
Proof. intros Hs. unfold list_getslice. rewrite Hs. reflexivity. Qed.

(** X5: on a view with a forward slice mask (no step or a positive one),
    when the hierarchy holds as many objects as the view's class has,
    [view[s]] for a forward slice [s] is the view's list sliced by [s]: the
    composed mask reproduces the nested slices [objects[mask][s]]. *)
Theorem forward_slice_of_forward_slice_view {J} `{JavaHierarchy J}
    (p : PathObjectProxy) (w : World J) (m s : slice) :
  _mask p = Some (MaskSlice m) ->
  forward m = true ->
  forward s = true ->
  nObjects (java w) = Z.of_nat (length (getObjects (java w) (java_class (_paquo_cls p)))) ->
  derive_and_list (ISlice s) (p, w)
  = rbind (list_of (getObjects (java w) (java_class (_paquo_cls p))) (_mask p))
          (fun l1 => list_getslice l1 s).
Proof.
  intros Hm Hfm Hfs Hn. rewrite Hm. simpl list_of.
  set (L := getObjects (java w) (java_class (_paquo_cls p))) in *.
  set (n := Z.of_nat (length L)) in *.
  assert (0 <= n) as Hn0 by (unfold n; lia).
  destruct (slice_indices_forward m n Hfm) as (a1 & b1 & c1 & Hs1 & Hc1).
  destruct (slice_indices_bounds m n a1 b1 c1 Hn0 Hs1) as (_ & Hb1 & _).
  destruct (Hb1 Hc1) as [Ha1 Hb1'].
  pose proof (progression_len_nonneg a1 b1 c1 ltac:(lia)) as Hlen0.
  destruct (slice_indices_forward s (progression_len a1 b1 c1) Hfs) as (a2 & b2 & c2 & Hs2 & Hc2).
  destruct (slice_indices_bounds s _ a2 b2 c2 Hlen0 Hs2) as (_ & Hb2 & _).
  destruct (Hb2 Hc2) as [Ha2 Hb2'].
  destruct (sliced_lookup L m a1 b1 c1 0 Hs1) as [Hlen1 _].
  (* the nested slices *)
  rewrite (list_getslice_sel L m a1 b1 c1 Hs1). cbn [rbind].
  rewrite (list_getslice_sel (sel L (progression a1 b1 c1)) s a2 b2 c2)
    by (rewrite Hlen1; exact Hs2).
  rewrite (sel_of_sliced L m a1 b1 c1 _ Hs1)
    by (apply (slice_positions_valid s _ a2 b2 c2 Hlen0 Hs2)).
  rewrite <- (forward_of_forward n a1 b1 c1 a2 b2 c2) by assumption.
  (* the composed mask *)
  rewrite (derive_and_list_eq _ p w
             (Ok (MaskSlice (Slice (Some (a1 + a2 * c1)) (Some (a1 + b2 * c1)) (Some (c2 * c1)))))).
  - cbn [rbind restrict]. fold L.
    apply list_getslice_sel. fold n.
    apply slice_indices_explicit_forward; nia.
  - rewrite (getitem_slice_of_slice_eq p w m s Hm).
    rewrite Hn. fold L. fold n. rewrite range1_getslice, Hs1 by assumption. cbn [rbind].
    unfold range_getslice at 1. unfold range_len. cbn [r_start r_stop r_step].
    rewrite Hs2. reflexivity.
  - intros m' E. injection E as <-. reflexivity.
Qed.

Lemma forward_slice_of_forward_slice_view_witness :
  derive_and_list (ISlice (Slice (Some 1) None None))
    (mkProxy standalone QuPathPathAnnotationObject
       (Some (MaskSlice (Slice (Some 1) None (Some 2)))) None None, six_annotations)
  = Ok [ann 4; ann 6].
Proof.
  rewrite (forward_slice_of_forward_slice_view _ six_annotations
             (Slice (Some 1) None (Some 2)) (Slice (Some 1) None None)); reflexivity.
Defined.

(** ** Reading through a view *)

(** The list a view reads: the cached one, or the one it materializes. *)
Lemma _list_shape {J} `{JavaHierarchy J} (p : PathObjectProxy) (w : World J) :
  exists r p', _list (p, w) = (r, (p', w))
    /\ (p' = p \/ exists l, r = Ok l /\ p' = set_memo__list (Some l) p).
Proof.
  unfold _list, cached_property. simpl.
  destruct (memo__list p) as [l|]; [eauto|].
  match goal with
  | |- context [if ?c then ?a else ?b] => destruct (if c then a else b) as [l|e]
  end; eauto 8.
Qed.

Lemma in_range_normalized (n i : Z) :
  0 <= normalized n i < n <-> - n <= i < n.
Proof. unfold normalized. destruct (Z.ltb_spec i 0); lia. Qed.

(** X6: integer indexing of a view reads its list with Python's rule
    for negative indices: for [-len <= i < len] the result is the wrapped
    element at [i], counted from the end when [i] is negative; any other
    index raises IndexError. Either way only the cache of the view may have
    changed. *)
Theorem getitem_int_bounds {J} `{JavaHierarchy J}
    (p : PathObjectProxy) (w : World J) (l : list PathObject) (st' : St) (i : Z) :
  _list (p, w) = (Ok l, st') ->
  let len := Z.of_nat (length l) in
  (- len <= i < len ->
     exists o, l !! Z.to_nat (if i <? 0 then i + len else i) = Some o
       /\ __getitem__ (IInt i) (p, w) = (Ok (ItemObject (_paquo_cls p) o), st'))
  /\ (~ (- len <= i < len) ->
      __getitem__ (IInt i) (p, w) = (Raise (IndexError "list index out of range"), st')).
Proof.
  intros Hl len.
  assert (__getitem__ (IInt i) (p, w)
          = match list_getitem l i with
            | Ok o => (Ok (ItemObject (_paquo_cls p) o), st')
            | Raise e => (Raise e, st')
            end) as Hg.
  { unfold __getitem__, bind, self, gets, lift, ret. simpl. rewrite Hl.
    destruct (list_getitem l i); reflexivity. }
  split; intros Hi; rewrite Hg.
  - apply in_range_normalized in Hi.
    destruct (list_getitem_in_range l i Hi) as (o & Ho & ->). eauto.
  - rewrite list_getitem_out_of_range; [reflexivity|].
    rewrite in_range_normalized. exact Hi.
Qed.

Lemma getitem_int_bounds_witness :
  __getitem__ (IInt (-1)) (annotations_of standalone, three_annotations)
  = (Ok (ItemObject QuPathPathAnnotationObject (ann 3)),
     (set_memo__list (Some [ann 1; ann 2; ann 3]) (annotations_of standalone), three_annotations)).
Proof.
  assert (_list (annotations_of standalone, three_annotations)
          = (Ok [ann 1; ann 2; ann 3],
             (set_memo__list (Some [ann 1; ann 2; ann 3]) (annotations_of standalone),
              three_annotations))) as Hl by reflexivity.
  destruct (getitem_int_bounds (annotations_of standalone) three_annotations
              [ann 1; ann 2; ann 3] _ (-1) Hl) as [Hin _].
  destruct Hin as (o & Ho & Hg); [simpl; lia|].
  simpl in Ho. injection Ho as <-. exact Hg.
Defined.

(** Cases on the outcome of the constructor in the goal. *)
Ltac case_init :=
  let Hq := fresh "Hq" in
  first
    [ match goal with
      | |- context [PathObjectProxy.__init__ ?h ?c ?m] =>
          let E := fresh "E" in
          destruct (PathObjectProxy.__init__ h c m) eqn:E; simpl; [|discriminate];
          intros Hq; injection Hq as <-; eauto
      end
    | intros Hq; injection Hq as <-;
      match goal with
      | |- context [{| _mask := Some ?mk |}] => exists mk; reflexivity
      end ].

(** The proxy a slice or an index list yields comes out of the
    constructor, for the same hierarchy and class. *)
Lemma getitem_proxy_inv {J} `{JavaHierarchy J} (p q : PathObjectProxy) (w : World J)
    (i : index) :
  fst (__getitem__ i (p, w)) = Ok (ItemProxy q) ->
  exists m, PathObjectProxy.__init__ (_hierarchy p) (_paquo_cls p) (Some m) = Ok q.
Proof.
  destruct w as [s hp].
  unfold __getitem__, bind, self, gets, lift, ret, jcall. simpl.
  destruct i as [z|sl|idxs].
  - destruct (_list (p, {| java := s; heap := hp |})) as [[l|e] st]; simpl; [|discriminate].
    destruct (list_getitem l z); simpl; discriminate.
  - destruct (_mask p) as [[m|m]|]; simpl.
    + destruct (rbind (range_getslice (range1 (nObjects s)) m)
                  (fun r => range_getslice r sl)) as [_s|e]; simpl; [|discriminate].
      case_init.
    + destruct (list_getslice m sl) as [l|e]; simpl; [|discriminate].
      case_init.
    + case_init.
  - destruct (_mask p) as [[m|m]|]; simpl.
    + destruct (range_getslice (range1 (nObjects s)) m) as [_s|e]; simpl; [|discriminate].
      destruct (comprehension (range_index _s) idxs) as [l|e]; simpl; [|discriminate].
      case_init.
    + destruct (comprehension (list_index m) idxs) as [l|e]; simpl; [|discriminate].
      case_init.
    + case_init.
Qed.

(** The three mutators on a proxy whose mask is true. *)
Lemma mutators_stop_at_mask {J} `{JavaHierarchy J} (q : PathObjectProxy) (w : World J)
    (x : pyvalue) :
  truthy (_mask q) = true ->
  add x (q, w) = (Raise ViewRestrictedError, (q, w))
  /\ discard x (q, w) = (Raise ViewRestrictedError, (q, w))
  /\ clear (q, w) = (Raise ViewRestrictedError, (q, w)).
Proof.
  intros Ht. unfold add, discard, clear, bind, self, gets; simpl. rewrite Ht. auto.
Qed.

(** X8: whatever a slice or an index list yields on any view is a
    derived view of the same hierarchy and class, with a mask and empty
    caches, and it is read-only: [add], [discard] and [clear] on it raise
    the "cannot modify view" IOError in every world and change nothing. *)
Theorem sliced_views_are_read_only {J} `{JavaHierarchy J}
    (p q : PathObjectProxy) (w : World J) (i : index) :
  fst (__getitem__ i (p, w)) = Ok (ItemProxy q) ->
  (_hierarchy q = _hierarchy p /\ _paquo_cls q = _paquo_cls p /\ _mask q <> None
   /\ memo__readonly q = None /\ memo__list q = None)
  /\ forall (x : pyvalue) (w' : World J),
       add x (q, w') = (Raise ViewRestrictedError, (q, w'))
       /\ discard x (q, w') = (Raise ViewRestrictedError, (q, w'))
       /\ clear (q, w') = (Raise ViewRestrictedError, (q, w')).
Proof.
  intros Hg. destruct (getitem_proxy_inv p q w i Hg) as (m & Hinit).
  apply init_ok_inv in Hinit as [-> Hok]. split.
  - simpl. repeat split. discriminate.
  - intros x w'. apply mutators_stop_at_mask. cbn [_mask].
    rewrite truthy_of_mask_ok by assumption. apply bool_decide_eq_true_2. discriminate.
Qed.

Lemma sliced_views_are_read_only_witness :
  let q := mkProxy standalone QuPathPathAnnotationObject
             (Some (MaskSlice (Slice (Some 0) (Some 2) None))) None None in
  add (PyObj (Topmost QuPathPathAnnotationObject (ann 9))) (q, three_annotations)
  = (Raise ViewRestrictedError, (q, three_annotations)).
Proof.
  intros q.
  destruct (sliced_views_are_read_only (annotations_of standalone) q three_annotations
              (ISlice (Slice (Some 0) (Some 2) None)) eq_refl) as [_ Hro].
  apply (Hro (PyObj (Topmost QuPathPathAnnotationObject (ann 9))) three_annotations).
Defined.

(** ** What the methods keep *)

Lemma stable_refl (p : PathObjectProxy) : stable p p.
Proof. unfold stable. auto. Qed.

Lemma stable_trans (p1 p2 p3 : PathObjectProxy) :
  stable p1 p2 -> stable p2 p3 -> stable p1 p3.
Proof.
  unfold stable. intros (H1 & H2 & H3 & H4) (K1 & K2 & K3 & K4).
  repeat split; try congruence. auto.
Qed.

Lemma stable_set_memo__list (p : PathObjectProxy) v : stable p (set_memo__list v p).
Proof. unfold stable. simpl. auto. Qed.

Section Combinators.
Context {J : Type} `{JavaHierarchy J}.

Lemma keeps_ret {A} (a : A) : keeps_identity (J:=J) (ret a).
Proof. intros p w. apply stable_refl. Qed.

Lemma keeps_raise {A} (e : exception) : keeps_identity (J:=J) (A:=A) (raise e).
Proof. intros p w. apply stable_refl. Qed.

Lemma keeps_lift {A} (r : result A) : keeps_identity (J:=J) (lift r).
Proof. intros p w. apply stable_refl. Qed.

Lemma keeps_gets {A} (f : @St J -> A) : keeps_identity (J:=J) (gets f).
Proof. intros p w. apply stable_refl. Qed.

Lemma keeps_jcall {A} (c : M J A) : keeps_identity (J:=J) (jcall c).
Proof.
  intros p w. unfold jcall. destruct (c (java w)) as [r s']. apply stable_refl.
Qed.

Lemma keeps_bind {A B} (c : M (@St J) A) (k : A -> M (@St J) B) :
  keeps_identity (J:=J) c -> (forall a, keeps_identity (J:=J) (k a)) -> keeps_identity (J:=J) (bind c k).
Proof.
  intros Hc Hk p w. unfold bind. specialize (Hc p w).
  destruct (c (p, w)) as [[a|e] [p' w']]; simpl in *; [|exact Hc].
  eapply stable_trans; [exact Hc|apply Hk].
Qed.

Lemma keeps__readonly : keeps_identity (J:=J) PathObjectProxy._readonly.
Proof.
  intros p w. rewrite _readonly_eval. simpl.
  unfold stable, effective_readonly. simpl. repeat split.
  intros b Hb. rewrite Hb. reflexivity.
Qed.

Lemma keeps__list : keeps_identity (J:=J) _list.
Proof.
  intros p w. destruct (_list_shape p w) as (r & p' & -> & [->|(l & _ & ->)]); simpl.
  - apply stable_refl.
  - apply stable_set_memo__list.
Qed.

Lemma keeps_try_finally {A} (body : M (@St J) A) :
  keeps_identity (J:=J) body -> keeps_identity (J:=J) (try_finally body _list_invalidate_cache).
Proof.
  intros Hb p w. unfold try_finally. specialize (Hb p w).
  destruct (body (p, w)) as [r [p' w']]; simpl in *. exact Hb.
Qed.

Lemma reads_ret {A} (a : A) : reads_only (J:=J) (ret a).
Proof. intros p w. reflexivity. Qed.

Lemma reads_raise {A} (e : exception) : reads_only (J:=J) (A:=A) (raise e).
Proof. intros p w. reflexivity. Qed.

Lemma reads_lift {A} (r : result A) : reads_only (J:=J) (lift r).
Proof. intros p w. reflexivity. Qed.

Lemma reads_gets {A} (f : @St J -> A) : reads_only (J:=J) (gets f).
Proof. intros p w. reflexivity. Qed.

Lemma reads_jcall_gets {A} (f : J -> A) : reads_only (J:=J) (jcall (gets f)).
Proof. intros p [s hp]. reflexivity. Qed.

Lemma reads_bind {A B} (c : M (@St J) A) (k : A -> M (@St J) B) :
  reads_only (J:=J) c -> (forall a, reads_only (J:=J) (k a)) -> reads_only (J:=J) (bind c k).
Proof.
  intros Hc Hk p w. unfold bind. specialize (Hc p w).
  destruct (c (p, w)) as [[a|e] [p' w']]; simpl in *; [|exact Hc].
  subst w'. apply Hk.
Qed.

Lemma reads__list : reads_only (J:=J) _list.
Proof.
  intros p w. destruct (_list_shape p w) as (r & p' & -> & _). reflexivity.
Qed.

End Combinators.

Create HintDb proxy.
#[export] Hint Resolve keeps_ret keeps_raise keeps_lift keeps_gets keeps_jcall
  keeps__readonly keeps__list keeps_try_finally
  reads_ret reads_raise reads_lift reads_gets reads_jcall_gets reads__list : proxy.

(** Walks through a method body, binding by binding and case by case. *)
Ltac step_body :=
  repeat first
    [ progress (intros)
    | apply keeps_bind
    | apply reads_bind
    | apply keeps_try_finally
    | solve [auto with proxy]
    | match goal with
      | |- keeps_identity (if ?c then _ else _) => destruct c
      | |- reads_only (if ?c then _ else _) => destruct c
      | |- keeps_identity (match ?x with _ => _ end) => destruct x
      | |- reads_only (match ?x with _ => _ end) => destruct x
      | |- keeps_identity (let '(_, _) := ?x in _) => destruct x
      | |- reads_only (let '(_, _) := ?x in _) => destruct x
      end ].

Section Kept.
Context {J : Type} `{JavaHierarchy J}.

Lemma keeps_add (x : pyvalue) : keeps_identity (J:=J) (add x).
Proof. unfold add, self. step_body. Qed.

Lemma keeps_discard (x : pyvalue) : keeps_identity (J:=J) (discard x).
Proof. unfold discard, self. step_body. Qed.

Lemma keeps_clear : keeps_identity (J:=J) clear.
Proof. unfold clear, self. step_body. Qed.

Lemma keeps_update (it : list pyvalue) : keeps_identity (J:=J) (update it).
Proof.
  induction it as [|x it IH]; simpl; [auto with proxy|].
  apply keeps_bind; [apply keeps_add|intros _; exact IH].
Qed.

Lemma keeps_contains (x : pyvalue) : keeps_identity (J:=J) (__contains__ x).
Proof. unfold __contains__, contains_traced, self. step_body. Qed.

Lemma keeps_len : keeps_identity (J:=J) PathObjectProxy.__len__.
Proof. unfold PathObjectProxy.__len__. step_body. Qed.

Lemma keeps_iter : keeps_identity (J:=J) __iter__.
Proof. unfold __iter__, self. step_body. Qed.

Lemma keeps_getitem (i : index) : keeps_identity (J:=J) (__getitem__ i).
Proof. unfold __getitem__, self. step_body. Qed.

Lemma reads_contains (x : pyvalue) : reads_only (J:=J) (__contains__ x).
Proof. unfold __contains__, contains_traced, self. step_body. Qed.

Lemma reads_len : reads_only (J:=J) PathObjectProxy.__len__.
Proof. unfold PathObjectProxy.__len__. step_body. Qed.

Lemma reads_iter : reads_only (J:=J) __iter__.
Proof. unfold __iter__, self. step_body. Qed.

Lemma reads_getitem (i : index) : reads_only (J:=J) (__getitem__ i).
Proof. unfold __getitem__, self. step_body. Qed.

End Kept.

(** X9: no method of the proxy changes the hierarchy, the class or the
    mask the proxy was built with, nor its readonly state once it is
    memoized: this holds after [add], [discard], [clear], [update],
    [__contains__], [__len__], [__iter__] and [__getitem__], whether they
    return or raise. *)
Theorem methods_keep_identity {J} `{JavaHierarchy J}
    (p : PathObjectProxy) (w : World J) (x : pyvalue) (i : index) (it : list pyvalue) :
  stable p (fst (snd (add x (p, w))))
  /\ stable p (fst (snd (discard x (p, w))))
  /\ stable p (fst (snd (clear (p, w))))
  /\ stable p (fst (snd (update it (p, w))))
  /\ stable p (fst (snd (__contains__ x (p, w))))
  /\ stable p (fst (snd (PathObjectProxy.__len__ (p, w))))
  /\ stable p (fst (snd (__iter__ (p, w))))
  /\ stable p (fst (snd (__getitem__ i (p, w)))).
Proof.
  repeat split;
    first [ apply keeps_add | apply keeps_discard | apply keeps_clear | apply keeps_update
          | apply keeps_contains | apply keeps_len | apply keeps_iter | apply keeps_getitem ].
Qed.

Lemma contains_state {J} `{JavaHierarchy J} (p : PathObjectProxy) (w : World J) (x : pyvalue) :
  snd (__contains__ x (p, w)) = (p, w).
Proof.
  destruct w as [s hp].
  unfold __contains__, contains_traced, bind, self, gets, ret, raise, jcall. simpl.
  destruct (isinstance x (_paquo_cls p)); simpl; [|reflexivity].
  destruct x as [z|str|o]; simpl; try reflexivity.
  destruct (walk o) as [top n]. reflexivity.
Qed.

Lemma slicing_state {J} `{JavaHierarchy J} (p : PathObjectProxy) (w : World J) (i : index) :
  (forall z, i <> IInt z) -> snd (__getitem__ i (p, w)) = (p, w).
Proof.
  intros Hi. destruct i as [z|s|idxs]; [destruct (Hi z); reflexivity| |].
  - destruct (_mask p) as [[m|m]|] eqn:Hm.
    + rewrite (getitem_slice_of_slice_eq p w m s Hm). reflexivity.
    + rewrite (getitem_slice_of_seq_eq p w m s Hm). reflexivity.
    + unfold __getitem__, bind, self, gets, ret, lift. simpl. rewrite Hm. reflexivity.
  - destruct (_mask p) as [[m|m]|] eqn:Hm.
    + rewrite (getitem_seq_of_slice_eq p w m idxs Hm). reflexivity.
    + rewrite (getitem_seq_of_seq_eq p w m idxs Hm). reflexivity.
    + unfold __getitem__, bind, self, gets, ret, lift. simpl. rewrite Hm. simpl.
      destruct (PathObjectProxy.__init__ _ _ _); reflexivity.
Qed.

(** X7: the reading methods never change the world: after [__len__],
    [__iter__], [__contains__] and [__getitem__] the store and the image
    entries are what they were. [__contains__] and the derivation of a view
    by a slice or an index list do not change the proxy either: they do not
    even materialize its list. *)
Theorem reads_leave_the_world {J} `{JavaHierarchy J}
    (p : PathObjectProxy) (w : World J) (x : pyvalue) (i : index) :
  snd (snd (PathObjectProxy.__len__ (p, w))) = w
  /\ snd (snd (__iter__ (p, w))) = w
  /\ snd (__contains__ x (p, w)) = (p, w)
  /\ snd (snd (__getitem__ i (p, w))) = w
  /\ ((forall z, i <> IInt z) -> snd (__getitem__ i (p, w)) = (p, w)).
Proof.
  split; [apply reads_len|]. split; [apply reads_iter|].
  split; [apply contains_state|]. split; [apply reads_getitem|].
  apply slicing_state.
Qed.

Lemma reads_leave_the_world_witness :
  snd (__getitem__ (ISlice (Slice None None (Some (-1))))
         (annotations_of standalone, three_annotations))
  = (annotations_of standalone, three_annotations).
Proof.
  destruct (reads_leave_the_world (annotations_of standalone) three_annotations
              (PyInt 0) (ISlice (Slice None None (Some (-1))))) as (_ & _ & _ & _ & Hs).
  apply Hs. intros z. discriminate.
Defined.

(** ** Mutation through a base view *)

(** X11: on a base view that is not readonly, [add] of an instance of
    the view's class hands it to the store and ends with the outcome of the
    store. The length of the view afterwards is the length of the list the
    view had cached before the call, if it had one: the cached list
    outlives the call. A view that had none reads the objects the store
    lists after the call. *)
Theorem add_then_len {J} `{JavaHierarchy J}
    (p : PathObjectProxy) (w : World J) (o : _PathROIObject) (r : result unit) (s' : J) :
  _mask p = None ->
  effective_readonly p w = false ->
  isinstance (PyObj o) (_paquo_cls p) = true ->
  addPathObject (java_object o) (java w) = (r, s') ->
  exists st1,
    add (PyObj o) (p, w) = (r, st1)
    /\ java (snd st1) = s'
    /\ fst (PathObjectProxy.__len__ st1)
       = Ok (Z.of_nat (length (match memo__list p with
                               | Some l => l
                               | None => getObjects s' (java_class (_paquo_cls p))
                               end))).
Proof.
  intros Hm Hro Hi Hadd.
  rewrite add_base_eq by assumption. cbv zeta. rewrite Hro, Hi. cbn [negb].
  unfold try_finally, bind, lift, jcall. simpl. rewrite Hadd. simpl.
  eexists. split; [reflexivity|]. split; [reflexivity|].
  unfold PathObjectProxy.__len__, bind, _list, cached_property. simpl.
  destruct (memo__list p) as [l|]; [reflexivity|].
  rewrite Hm. reflexivity.
Qed.

Lemma add_then_len_witness :
  let stale := set_memo__list (Some [ann 1]) (annotations_of standalone) in
  exists st1,
    add (PyObj (Topmost QuPathPathAnnotationObject (ann 4))) (stale, three_annotations)
    = (Ok tt, st1)
    /\ java (snd st1) = [ann 1; ann 2; ann 3; ann 4]
    /\ fst (PathObjectProxy.__len__ st1) = Ok 1.
Proof.
  intros stale.
  destruct (add_then_len stale three_annotations (Topmost QuPathPathAnnotationObject (ann 4))
              (Ok tt) [ann 1; ann 2; ann 3; ann 4]) as (st1 & Hadd & Hjava & Hlen);
    try reflexivity.
  exists st1. split; [exact Hadd|]. split; [exact Hjava|exact Hlen].
Defined.

(** X12: on a base view a mutator that stops at a guard leaves the store,
    the world and the cached list as they are. When the view is readonly,
    [discard] and [clear] raise the "project in readonly mode" IOError;
    when it is not, [add] and [discard] of something that is not an
    instance of the view's class raise a TypeError naming both classes. *)
Theorem guards_touch_nothing {J} `{JavaHierarchy J}
    (p : PathObjectProxy) (w : World J) (x : pyvalue) :
  _mask p = None ->
  (effective_readonly p w = true ->
     discard x (p, w) = (Raise ReadOnlyError, (set_memo__readonly (Some true) p, w))
     /\ clear (p, w) = (Raise ReadOnlyError, (set_memo__readonly (Some true) p, w)))
  /\ (effective_readonly p w = false -> isinstance x (_paquo_cls p) = false ->
      let e := TypeError ("requires " +:+ __name__ (_paquo_cls p) +:+ " instance got "
                          +:+ class_name x) in
      add x (p, w) = (Raise e, (set_memo__readonly (Some false) p, w))
      /\ discard x (p, w) = (Raise e, (set_memo__readonly (Some false) p, w))).
Proof.
  intros Hm. split.
  - intros Hro. rewrite discard_base_eq, clear_base_eq by assumption. simpl.
    rewrite Hro. auto.
  - intros Hro Hi e. rewrite add_base_eq, discard_base_eq by assumption. simpl.
    rewrite Hro, Hi. auto.
Qed.

Lemma guards_touch_nothing_witness :
  let cached := set_memo__list (Some [ann 1; ann 2; ann 3]) (annotations_of standalone) in
  discard (PyStr "a1") (cached, three_annotations)
  = (Raise (TypeError "requires QuPathPathAnnotationObject instance got str"),
     (set_memo__readonly (Some false) cached, three_annotations)).
Proof.
  intros cached.
  destruct (guards_touch_nothing cached three_annotations (PyStr "a1") eq_refl) as [_ Hty].
  destruct (Hty eq_refl eq_refl) as [_ Hd]. exact Hd.
Defined.

(** X13: [clear] on a base view that is not readonly hands the store the
    list the view has cached, if it has one, and the objects the store
    lists for the view's class otherwise; the outcome and the store are
    those of that one [removePathObjects] call. It is the cached snapshot,
    not the live content of the store, that is handed over, and the view
    has that list cached when the call returns. *)
Theorem clear_removes_the_snapshot {J} `{JavaHierarchy J}
    (p : PathObjectProxy) (w : World J) :
  _mask p = None ->
  effective_readonly p w = false ->
  clear (p, w)
  = let snapshot := match memo__list p with
                    | Some l => l
                    | None => getObjects (java w) (java_class (_paquo_cls p))
                    end in
    let '(r, s') := removePathObjects snapshot (java w) in
    (r, (set_memo__list (Some snapshot) (set_memo__readonly (Some false) p),
         mkWorld s' (heap w))).
Proof.
  intros Hm Hro. rewrite clear_base_eq by assumption. simpl. rewrite Hro.
  unfold try_finally, bind, _list, cached_property, jcall. simpl.
  destruct (memo__list p) as [l|] eqn:Hc; simpl.
  - destruct (removePathObjects l (java w)) as [r s']. destruct p; simpl in *.
    subst. reflexivity.
  - rewrite Hm. simpl.
    destruct (removePathObjects _ (java w)) as [r s']. reflexivity.
Qed.

Lemma clear_removes_the_snapshot_witness :
  let stale := set_memo__list (Some [ann 1]) (annotations_of standalone) in
  clear (stale, three_annotations)
  = (Ok tt, (set_memo__readonly (Some false) stale, mkWorld [ann 2; ann 3] ∅)).
Proof.
  intros stale.
  rewrite (clear_removes_the_snapshot stale three_annotations); reflexivity.
Defined.

(** ** update *)




(** ** The hierarchy *)

(** X15: the root object, which [root] wraps as an annotation without
    parent, is a member of the annotations view of the hierarchy and not
    of its detections view: [__contains__] answers True for it although no
    list of the view has to hold it. *)
Theorem root_is_in_annotations {J} `{JavaHierarchy J} (image : option nat) (w : World J) :
  let i := QuPathPathObjectHierarchy.new image in
  let r := Topmost QuPathPathAnnotationObject (getRootObject (java w)) in
  QuPathPathObjectHierarchy.root (i, w) = (Ok r, (i, w))
  /\ __contains__ (PyObj r) (_annotations i, w) = (Ok true, (_annotations i, w))
  /\ __contains__ (PyObj r) (_detections i, w) = (Ok false, (_detections i, w)).
Proof.
  intros i r. destruct w as [s hp]. split; [reflexivity|]. split.
  - unfold __contains__, contains_traced, bind, self, gets, ret, jcall. simpl.
    rewrite bool_decide_eq_true_2 by reflexivity. reflexivity.
  - reflexivity.
Qed.

(** X16: the hierarchy is readonly exactly when its weak reference still
    resolves to an image entry and that entry has a [_readonly] attribute
    that is true: an expired entry, no entry, or an entry without the
    attribute all mean writable. *)
Theorem hierarchy_readonly_iff (hp : gmap nat QuPathProjectImageEntry) (h : Hierarchy) :
  Hierarchy_readonly hp h = true
  <-> exists a, _image_ref h = weakref_ref a
                /\ hp !! a = Some {| entry__readonly := Some true |}.
Proof.
  unfold Hierarchy_readonly, call_ref. split.
  - destruct (_image_ref h) as [a|]; [|discriminate].
    destruct (hp !! a) as [[[[|]|]]|] eqn:E; simpl; try discriminate. eauto.
  - intros (a & -> & ->). reflexivity.
Qed.

Section ConvenienceAdds.
Context {J : Type} `{JavaHierarchy J}.
Context {Roi PathClass Measurements Float : Type} `{Factory Roi PathClass Measurements Float}.

Lemma instance_eta (i : Instance) : mkInstance (core i) (_annotations i) (_detections i) = i.
Proof. destruct i; reflexivity. Qed.

(** X17: [add_annotation], [add_detection] and [add_tile] check the
    hierarchy itself, at the time of the call and before anything is built:
    when the hierarchy is readonly they raise the "project in readonly
    mode" IOError and the instance, its proxies and the world are as
    before, whatever readonly state the proxies have memoized. *)
Theorem convenience_adds_check_the_hierarchy
    (i : Instance) (w : World J) (roi : Roi) (path_class : option PathClass)
    (measurements : option Measurements) (probability : Float) :
  Hierarchy_readonly (heap w) (core i) = true ->
  QuPathPathObjectHierarchy.add_annotation roi path_class measurements probability (i, w)
  = (Raise ReadOnlyError, (i, w))
  /\ QuPathPathObjectHierarchy.add_detection roi path_class measurements probability (i, w)
     = (Raise ReadOnlyError, (i, w))
  /\ QuPathPathObjectHierarchy.add_tile roi path_class measurements probability (i, w)
     = (Raise ReadOnlyError, (i, w)).
Proof.
  intros Hro.
  unfold QuPathPathObjectHierarchy.add_annotation, QuPathPathObjectHierarchy.add_detection,
    QuPathPathObjectHierarchy.add_tile, bind, gets. simpl.
  rewrite Hro. auto.
Qed.

(** X18: a convenience method goes through the proxy's own [add] after
    the hierarchy's check. When the annotations view has memoized a true
    readonly state and the hierarchy is writable by now, [add_annotation]
    passes the first check, builds the object and then fails on the view
    with the "project in readonly mode" IOError; nothing is added. *)
Theorem stale_view_blocks_add_annotation
    (i : Instance) (w : World J) (roi : Roi) (path_class : option PathClass)
    (measurements : option Measurements) (probability : Float) (obj : PathObject) :
  Hierarchy_readonly (heap w) (core i) = false ->
  _mask (_annotations i) = None ->
  memo__readonly (_annotations i) = Some true ->
  from_shapely QuPathPathAnnotationObject roi path_class measurements probability = Ok obj ->
  QuPathPathObjectHierarchy.add_annotation roi path_class measurements probability (i, w)
  = (Raise ReadOnlyError, (i, w)).
Proof.
  intros Hro Hm Hmemo Hobj.
  unfold QuPathPathObjectHierarchy.add_annotation, bind, gets, lift,
    QuPathPathObjectHierarchy.on_annotations. simpl.
  rewrite Hro, Hobj. simpl.
  rewrite add_base_eq by assumption. cbv zeta.
  unfold effective_readonly. rewrite Hmemo.
  rewrite set_memo__readonly_id by assumption. rewrite instance_eta. reflexivity.
Qed.

(** X19: on a writable hierarchy whose detections view is a base view
    that is not readonly, [add_tile] and [add_detection] hand the object
    they built to [addPathObject] once: a tile passes the class check of
    the detections view. The outcome is the new object, or the exception
    of the store; the detections proxy keeps the list it has cached and
    the annotations proxy is not touched. When the object cannot be built,
    the exception of the factory is raised and nothing changes. *)
Theorem add_tile_goes_to_detections
    (i : Instance) (w : World J) (roi : Roi) (path_class : option PathClass)
    (measurements : option Measurements) (probability : Float) :
  Hierarchy_readonly (heap w) (core i) = false ->
  _mask (_detections i) = None ->
  _paquo_cls (_detections i) = QuPathPathDetectionObject ->
  effective_readonly (_detections i) w = false ->
  let after (obj : PathObject) (c : PaquoClass) :=
    let '(r, s') := addPathObject obj (java w) in
    (match r with Ok _ => Ok (ItemObject c obj) | Raise e => Raise e end,
     (mkInstance (core i) (_annotations i)
        (set_memo__readonly (Some false) (_detections i)),
      mkWorld s' (heap w))) in
  QuPathPathObjectHierarchy.add_tile roi path_class measurements probability (i, w)
  = match from_shapely QuPathPathTileObject roi path_class measurements probability with
    | Ok obj => after obj QuPathPathTileObject
    | Raise e => (Raise e, (i, w))
    end
  /\ QuPathPathObjectHierarchy.add_detection roi path_class measurements probability (i, w)
     = match from_shapely QuPathPathDetectionObject roi path_class measurements probability with
       | Ok obj => after obj QuPathPathDetectionObject
       | Raise e => (Raise e, (i, w))
       end.
Proof.
  intros Hro Hm Hcls Heff after. unfold after.
  unfold QuPathPathObjectHierarchy.add_tile, QuPathPathObjectHierarchy.add_detection,
    bind, gets, lift, ret, QuPathPathObjectHierarchy.on_detections. simpl.
  rewrite Hro. simpl.
  split.
  - destruct (from_shapely QuPathPathTileObject _ _ _ _) as [obj|e]; [|reflexivity].
    rewrite add_base_eq by assumption. cbv zeta. rewrite Heff, Hcls. simpl.
    unfold try_finally, bind, lift, jcall. simpl.
    destruct (addPathObject obj (java w)) as [[[]|e] s']; reflexivity.
  - destruct (from_shapely QuPathPathDetectionObject _ _ _ _) as [obj|e]; [|reflexivity].
    rewrite add_base_eq by assumption. cbv zeta. rewrite Heff, Hcls. simpl.
    unfold try_finally, bind, lift, jcall. simpl.
    destruct (addPathObject obj (java w)) as [[[]|e] s']; reflexivity.
Qed.

End ConvenienceAdds.

Lemma convenience_adds_check_the_hierarchy_witness :
  let i := mkInstance of_image (set_memo__readonly (Some false) (annotations_of of_image))
             (mkProxy of_image QuPathPathDetectionObject None None None) in
  QuPathPathObjectHierarchy.add_annotation 9%nat None None tt (i, image_world true [ann 1])
  = (Raise ReadOnlyError, (i, image_world true [ann 1])).
Proof.
  intros i.
  apply (convenience_adds_check_the_hierarchy i (image_world true [ann 1]) 9%nat None None tt).
  reflexivity.
Defined.

Lemma stale_view_blocks_add_annotation_witness :
  let i := mkInstance of_image (set_memo__readonly (Some true) (annotations_of of_image))
             (mkProxy of_image QuPathPathDetectionObject None None None) in
  QuPathPathObjectHierarchy.add_annotation 9%nat None None tt (i, image_world false [ann 1])
  = (Raise ReadOnlyError, (i, image_world false [ann 1])).
Proof.
  intros i.
  apply (stale_view_blocks_add_annotation i (image_world false [ann 1]) 9%nat None None tt
           (ann 9)); reflexivity.
Defined.

Lemma add_tile_goes_to_detections_witness :
  let i := QuPathPathObjectHierarchy.new None in
  QuPathPathObjectHierarchy.add_tile 9%nat None None tt (i, three_annotations)
  = (Ok (ItemObject QuPathPathTileObject (JObj 9 PathTileObject)),
     (mkInstance (core i) (_annotations i)
        (set_memo__readonly (Some false) (_detections i)),
      mkWorld [ann 1; ann 2; ann 3; JObj 9 PathTileObject] ∅)).
Proof.
  intros i.
  destruct (add_tile_goes_to_detections i three_annotations 9%nat None None tt)
    as [Htile _]; [reflexivity..|].
  rewrite Htile. reflexivity.
Defined.

(** ** More on bulk ingestion *)

Section MoreIngestion.
Context {J : Type} `{JavaHierarchy J}.
Context {G Geom Version : Type} `{Collaborators G Geom Version}.

(** The loop over a processed prefix of the batch. *)
Lemma loop_app fx (pre rest : list (annotation G)) : forall aos skipped,
  Forall (processed fx) pre ->
  loop fx (pre ++ rest) aos skipped
  = loop fx rest (aos ++ converted fx pre) (tally fx pre skipped).
Proof.
  induction pre as [|a pre IH]; intros aos skipped Hall.
  - simpl. rewrite app_nil_r. reflexivity.
  - inversion Hall as [|? ? Ha Hpre]; subst.
    unfold processed in Ha. unfold converted, tally, fails_conversion. simpl.
    destruct (try_body fx a) as [ao|e] eqn:E.
    + rewrite IH by assumption. rewrite <- app_assoc. reflexivity.
    + rewrite Ha. rewrite IH by assumption. reflexivity.
Qed.

Lemma tally_no_failure fx (records : list (annotation G)) : forall skipped,
  n_failed fx records = 0%nat -> tally fx records skipped = skipped.
Proof.
  unfold n_failed, tally. induction records as [|a rest IH]; intros skipped Hn; [reflexivity|].
  simpl. destruct (fails_conversion fx a) eqn:E.
  - rewrite filter_cons_True in Hn by assumption. discriminate.
  - rewrite filter_cons_False in Hn by (rewrite E; discriminate). apply IH. exact Hn.
Qed.

(** X20: [load_geojson] checks the hierarchy first and the shape of its
    argument second, before it looks at any record: on a readonly
    hierarchy every call raises the "project in readonly mode" IOError,
    even with an argument that is not a list; on a writable one an
    argument that is not a list raises a TypeError. In both cases the
    world is unchanged. *)
Theorem load_guards (self : Hierarchy) (geojson : geojson_arg G)
    (raise_on_skip fix_invalid : bool) (w : World J) :
  (Hierarchy_readonly (heap w) self = true ->
     load_geojson self geojson raise_on_skip fix_invalid w = (Raise ReadOnlyError, w))
  /\ (Hierarchy_readonly (heap w) self = false ->
      load_geojson self NotAList raise_on_skip fix_invalid w
      = (Raise (TypeError "requires a geojson list"), w)).
Proof.
  unfold load_geojson, bind, QuPathPathObjectHierarchy._readonly, gets, raise.
  split; intros ->; reflexivity.
Qed.

(** X21: on a writable hierarchy, for a batch of which every record is
    converted or fails conversion, [load_geojson] without [raise_on_skip],
    or with it when no record fails, makes exactly one call to the store:
    [insertPathObjects] with the converted objects in the order of their
    records, the failed records left out. Its result and the store it
    leaves are those of that call; an empty batch still makes the call,
    with no objects. *)
Theorem load_inserts_the_converted (self : Hierarchy) (records : list (annotation G))
    (raise_on_skip fix_invalid : bool) (w : World J) :
  Hierarchy_readonly (heap w) self = false ->
  Forall (processed fix_invalid) records ->
  raise_on_skip = false \/ n_failed fix_invalid records = 0%nat ->
  load_geojson self (GeoList records) raise_on_skip fix_invalid w
  = let '(r, s') := insertPathObjects (converted fix_invalid records) (java w) in
    (r, mkWorld s' (heap w)).
Proof.
  intros Hro Hall Hcase.
  unfold load_geojson, bind, QuPathPathObjectHierarchy._readonly, gets, lift, ret, raise.
  rewrite Hro. rewrite loop_processed by assumption. simpl.
  destruct (bool_decide (tally fix_invalid records ∅ = ∅)) eqn:Hempty; simpl; [reflexivity|].
  destruct Hcase as [->|Hnone]; [reflexivity|].
  rewrite tally_no_failure in Hempty by assumption.
  rewrite bool_decide_eq_true_2 in Hempty by reflexivity. discriminate.
Qed.

(** X22: an exception of a record that the handler does not catch ends
    the call: when the records before it are converted or fail
    conversion, [load_geojson] raises that exception, with or without
    [raise_on_skip]; the records after it are not looked at and nothing is
    inserted, the objects converted so far are dropped. *)
Theorem load_aborts_on_other_errors (self : Hierarchy)
    (pre : list (annotation G)) (a : annotation G) (post : list (annotation G))
    (e : exception) (raise_on_skip fix_invalid : bool) (w : World J) :
  Hierarchy_readonly (heap w) self = false ->
  Forall (processed fix_invalid) pre ->
  try_body fix_invalid a = Raise e ->
  caught e = false ->
  load_geojson self (GeoList (pre ++ a :: post)) raise_on_skip fix_invalid w = (Raise e, w).
Proof.
  intros Hro Hpre Ha He.
  unfold load_geojson, bind, QuPathPathObjectHierarchy._readonly, gets, lift.
  rewrite Hro. rewrite loop_app by assumption. simpl. rewrite Ha, He. reflexivity.
Qed.

(** X23: the repair of [fix_invalid] leaves a valid geometry alone,
    without a repair pass, and only ever returns a valid geometry; so a
    record that is converted with [fix_invalid] reached the converter with
    the description of a valid geometry and with its properties
    unchanged. *)
Theorem repair_yields_valid (s : Geom) :
  (is_valid s = true -> repair s = (0%nat, Ok s))
  /\ (forall n s', repair s = (n, Ok s') -> is_valid s' = true)
  /\ (forall (a : annotation G) (ao : PathObject), try_body true a = Ok ao ->
        exists s' a', is_valid s' = true
                      /\ geometry a' = __geo_interface__ s'
                      /\ properties a' = properties a
                      /\ from_geojson a' = Ok ao).
Proof.
  assert (forall g n g', repair g = (n, Ok g') -> is_valid g' = true) as Hvalid.
  { intros g n g'. unfold repair.
    destruct (is_valid g) eqn:V0; simpl; [intros E; injection E as <- <-; exact V0|].
    destruct (buffer g) as [g1|e1]; [|discriminate].
    destruct (is_valid g1) eqn:V1; simpl; [intros E; injection E as <- <-; exact V1|].
    destruct (buffer g1) as [g2|e2]; [|discriminate].
    destruct (is_valid g2) eqn:V2; simpl; [intros E; injection E as <- <-; exact V2|].
    discriminate. }
  split; [|split].
  - intros Hv. unfold repair. rewrite Hv. reflexivity.
  - apply Hvalid.
  - intros a ao. unfold try_body.
    destruct (shape (geometry a)) as [s0|e0]; simpl; [|discriminate].
    destruct (repair s0) as [n [s'|e']] eqn:Hrep; simpl; [|discriminate].
    intros Hconv. exists s'.
    match type of Hconv with
    | from_geojson ?a' = _ => exists a'
    end.
    split; [eapply Hvalid; exact Hrep|].
    split; [|split; [|exact Hconv]];
      match goal with
      | |- context [if ?c then _ else _] => destruct c; reflexivity
      end.
Qed.

Lemma tally_lookup fx (k : string) (records : list (annotation G)) : forall skipped,
  default 0%nat (tally fx records skipped !! k)
  = (default 0%nat (skipped !! k) + n_failed_as fx k records)%nat.
Proof.
  unfold tally, n_failed_as.
  induction records as [|a rest IH]; intros skipped; simpl; [lia|].
  rewrite IH. destruct (fails_conversion fx a) eqn:E.
  - destruct (decide (class_ a = k)) as [Hk|Hk].
    + rewrite filter_cons_True by auto. subst k.
      rewrite counter_incr_lookup. simpl. lia.
    + rewrite filter_cons_False by (intros [_ ?]; contradiction).
      unfold counter_incr. rewrite lookup_insert_ne by assumption. reflexivity.
  - rewrite filter_cons_False by (rewrite E; intros [? _]; discriminate). reflexivity.
Qed.

Lemma converted_and_failed fx (records : list (annotation G)) :
  Forall (processed fx) records ->
  (length (converted fx records) + n_failed fx records = length records)%nat.
Proof.
  unfold converted, n_failed, processed, fails_conversion.
  induction 1 as [|a rest Ha _ IH]; [reflexivity|].
  simpl. destruct (try_body fx a) as [ao|e] eqn:E.
  - rewrite filter_cons_False by (cbv beta; rewrite E; discriminate). simpl.
    f_equal. exact IH.
  - rewrite filter_cons_True by (cbv beta; rewrite E; assumption). simpl.
    rewrite Nat.add_succ_r. f_equal. exact IH.
Qed.

(** X24: when the loop of [load_geojson] ends, it has accounted for every
    record: the staged objects are the conversions of the records that
    converted, in order; each other record was counted once, under its
    classification name; so the staged objects and the failures add up to
    the batch, and the tally of a name is the number of failed records
    with that name. *)
Theorem loop_accounts_for_every_record (fix_invalid : bool)
    (records : list (annotation G)) (aos : list PathObject) (skipped : gmap string nat) :
  loop fix_invalid records [] ∅ = Ok (aos, skipped) ->
  aos = converted fix_invalid records
  /\ (length aos + n_failed fix_invalid records = length records)%nat
  /\ counter_total skipped = n_failed fix_invalid records
  /\ forall k, default 0%nat (skipped !! k) = n_failed_as fix_invalid k records.
Proof.
  intros Hloop.
  pose proof (loop_ok_processed _ _ _ _ _ Hloop) as Hall.
  rewrite loop_processed in Hloop by assumption.
  injection Hloop as <- <-. simpl.
  split; [reflexivity|]. split; [apply converted_and_failed; exact Hall|]. split.
  - rewrite tally_total, counter_total_empty. reflexivity.
  - intros k. rewrite tally_lookup, lookup_empty. reflexivity.
Qed.

End MoreIngestion.

Lemma load_guards_witness :
  load_geojson of_image (@NotAList (nat * nat)) true true (image_world true [ann 1])
  = (Raise ReadOnlyError, image_world true [ann 1]).
Proof.
  destruct (load_guards of_image (@NotAList (nat * nat)) true true (image_world true [ann 1]))
    as [Hro _].
  apply Hro. reflexivity.
Defined.

Lemma load_inserts_the_converted_witness :
  load_geojson standalone (GeoList batch_of_five) false true three_annotations
  = (Ok true, mkWorld [ann 1; ann 2; ann 3; ann 1; ann 2; ann 4; ann 5] ∅).
Proof.
  rewrite (load_inserts_the_converted standalone batch_of_five false true three_annotations).
  - vm_compute. reflexivity.
  - reflexivity.
  - repeat constructor.
  - left. reflexivity.
Defined.

Lemma loop_accounts_for_every_record_witness :
  default 0%nat (tally true batch_of_five ∅ !! "Stroma") = 1%nat.
Proof.
  destruct (loop_accounts_for_every_record true batch_of_five
              [ann 1; ann 2; ann 4; ann 5] (tally true batch_of_five ∅))
    as (_ & _ & _ & Hk).
  - vm_compute. reflexivity.
  - rewrite Hk. vm_compute. reflexivity.
Defined.

Lemma load_aborts_on_other_errors_witness :
  load_geojson standalone (GeoList [feature "ab"; feature ""; feature "abc"]) false false
    three_annotations
  = (Raise (KeyError "coordinates"), three_annotations).
Proof.
  apply (load_aborts_on_other_errors standalone [feature "ab"] (feature "") [feature "abc"]
           (KeyError "coordinates") false false three_annotations).
  - reflexivity.
  - repeat constructor.
  - reflexivity.
  - reflexivity.
Defined.

Lemma repair_yields_valid_witness :
  repair (1%nat, 2%nat) = (2%nat, Ok (1%nat, 0%nat))
  /\ is_valid (1%nat, 0%nat) = true.
Proof.
  split; [reflexivity|].
  destruct (repair_yields_valid (1%nat, 2%nat)) as (_ & Hvalid & _).
  apply (Hvalid 2%nat (1%nat, 0%nat)). reflexivity.
Defined.

(** The instance [new] builds is what [__init__] returns. *)
Lemma init_new {J} `{JavaHierarchy J} (image : option nat) :
  QuPathPathObjectHierarchy.__init__ image
  = Ok (core (QuPathPathObjectHierarchy.new image),
        _annotations (QuPathPathObjectHierarchy.new image),
        _detections (QuPathPathObjectHierarchy.new image)).
Proof. reflexivity. Qed.

(** ** Reads agree *)

(** X10: the reads of a view agree with each other and with the list the
    view reads: [__len__] is its length, [__iter__] yields its elements
    wrapped in the view's class, in order, and [view[k]] is the element
    [k] of the iteration. Once the list is read it is a snapshot: the view
    keeps answering with it in every later world, whatever the store
    holds by then. *)
Theorem reads_agree_on_a_snapshot {J} `{JavaHierarchy J}
    (p : PathObjectProxy) (w : World J) (l : list PathObject) (st' : St) :
  _list (p, w) = (Ok l, st') ->
  PathObjectProxy.__len__ (p, w) = (Ok (Z.of_nat (length l)), st')
  /\ __iter__ (p, w) = (Ok (ItemObject (_paquo_cls p) <$> l), st')
  /\ (forall k o, l !! k = Some o ->
        __getitem__ (IInt (Z.of_nat k)) (p, w) = (Ok (ItemObject (_paquo_cls p) o), st'))
  /\ (forall w' : World J,
        _list (fst st', w') = (Ok l, (fst st', w'))
        /\ PathObjectProxy.__len__ (fst st', w') = (Ok (Z.of_nat (length l)), (fst st', w'))).
Proof.
  intros Hl.
  assert (memo__list (fst st') = Some l) as Hmemo.
  { destruct (_list_shape p w) as (r & p' & Hshape & Hcase).
    rewrite Hshape in Hl. injection Hl as -> <-. simpl.
    destruct Hcase as [->|(l' & Hr & ->)].
    - unfold _list, cached_property in Hshape. simpl in Hshape.
      destruct (memo__list p) as [l0|] eqn:Hc; [congruence|].
      match type of Hshape with
      | context [if ?c then ?a else ?b] => destruct (if c then a else b) as [l0|e]
      end; [|discriminate].
      injection Hshape as _ Hp. apply (f_equal memo__list) in Hp. simpl in Hp. congruence.
    - simpl. congruence. }
  assert (forall w' : World J, _list (fst st', w') = (Ok l, (fst st', w'))) as Hsnap.
  { intros w'. unfold _list, cached_property. simpl. rewrite Hmemo. reflexivity. }
  split; [|split; [|split]].
  - unfold PathObjectProxy.__len__, bind, ret. rewrite Hl. reflexivity.
  - unfold __iter__, bind, self, gets, ret. simpl. rewrite Hl. reflexivity.
  - intros k o Hk.
    unfold __getitem__, bind, self, gets, lift, ret. simpl. rewrite Hl.
    destruct (list_getitem_in_range l (Z.of_nat k)) as (o' & Ho' & ->).
    + apply lookup_lt_Some in Hk. unfold normalized.
      destruct (Z.ltb_spec (Z.of_nat k) 0); lia.
    + unfold normalized in Ho'. destruct (Z.ltb_spec (Z.of_nat k) 0); [lia|].
      rewrite Nat2Z.id in Ho'. congruence.
  - intros w'. split; [apply Hsnap|].
    unfold PathObjectProxy.__len__, bind, ret. rewrite Hsnap. reflexivity.
Qed.

Lemma reads_agree_on_a_snapshot_witness :
  let read := set_memo__list (Some [ann 1; ann 2; ann 3]) (annotations_of standalone) in
  PathObjectProxy.__len__ (read, mixed_store) = (Ok 3, (read, mixed_store))
  /\ PathObjectProxy.__len__ (read, six_annotations) = (Ok 3, (read, six_annotations)).
Proof.
  intros read.
  assert (_list (annotations_of standalone, three_annotations)
          = (Ok [ann 1; ann 2; ann 3], (read, three_annotations))) as Hl by reflexivity.
  destruct (reads_agree_on_a_snapshot _ _ _ _ Hl) as (_ & _ & _ & Hsnap).
  split; [apply (Hsnap mixed_store)|apply (Hsnap six_annotations)].
Defined.

Lemma hierarchy_readonly_iff_witness :
  Hierarchy_readonly (heap (image_world true [])) of_image = true.
Proof.
  apply (hierarchy_readonly_iff (heap (image_world true [])) of_image).
  exists 7%nat. split; reflexivity.
Defined.

(** ** The compatibility layer *)

Section Compatibility.
Context {G Geom Version : Type} `{Collaborators G Geom Version}.

(** X25: without [fix_invalid], a record that has an [id], and every
    record when the store is not an old one, reaches the converter as it
    is. A record without [id] on an old store reaches it with its geometry
    and properties unchanged and an [id] that is one of the six class
    names of the table; it is "PathAnnotationObject" when the record has no
    [object_type] and when its [object_type] is not a key of the table. *)
Theorem compatibility_layer (a : annotation G) :
  (is_Some (id a) \/ old_version = false -> try_body false a = from_geojson a)
  /\ (id a = None -> old_version = true ->
      exists tag,
        try_body false a = from_geojson (mkAnnotation (geometry a) (properties a) (Some tag))
        /\ tag ∈ ["PathAnnotationObject"; "PathDetectionObject"; "PathTileObject";
                  "PathCellObject"; "TMACoreObject"; "PathRootObject"]
        /\ (object_type (properties a) = None -> tag = "PathAnnotationObject")
        /\ (forall t, object_type (properties a) = Some t -> object_id_table t = None ->
              tag = "PathAnnotationObject")).
Proof.
  unfold try_body, old_version. cbn [rbind]. split.
  - intros [[tag Htag]|Hold].
    + rewrite Htag. rewrite (bool_decide_eq_true_2 (is_Some (Some tag))) by eauto.
      rewrite andb_false_r. reflexivity.
    + rewrite Hold. reflexivity.
  - intros Hid Hold. rewrite Hold, Hid.
    rewrite (bool_decide_eq_false_2 (is_Some None)) by (intros [? ?]; discriminate).
    cbn [andb negb].
    exists (default "PathAnnotationObject"
              (object_id_table (default "unknown" (object_type (properties a))))).
    split; [reflexivity|]. split; [|split].
    + unfold object_id_table.
      repeat match goal with
             | |- context [if ?c then _ else _] => destruct c
             end; simpl; set_solver.
    + intros ->. reflexivity.
    + intros t Ht Hnone. rewrite Ht.
      change (default "unknown" (Some t)) with t. rewrite Hnone. reflexivity.
Qed.

End Compatibility.

Lemma compatibility_layer_witness :
  try_body false (mkAnnotation 8 {| object_type := None; classification := None |} None)
  = Ok (JObj 8 PathAnnotationObject)
  /\ try_body false (mkAnnotation 8 {| object_type := Some "tile"; classification := None |}
                       (Some "PathDetectionObject"))
     = Ok (JObj 8 PathDetectionObject).
Proof.
  split.
  - destruct (compatibility_layer
                (mkAnnotation 8 {| object_type := None; classification := None |} None))
      as [_ Hsynth].
    destruct (Hsynth eq_refl eq_refl) as (tag & -> & _ & Htag & _).
    rewrite (Htag eq_refl). reflexivity.
  - destruct (compatibility_layer
                (mkAnnotation 8 {| object_type := Some "tile"; classification := None |}
                   (Some "PathDetectionObject"))) as [Hkeep _].
    rewrite Hkeep; [reflexivity|]. left. eauto.
Defined.
